(** * News scraper (scraper.py): shallow embedding and verified properties

    The Python module drives a Selenium browser session.  The browser, the
    clock and the logger are effects; they are modelled by an explicit state
    (an abstract browser world plus the trace of observable events) threaded
    through a small state-and-exception monad.  Python exceptions are values
    of type [exn]; [try]/[except]/[finally] are combinators of the monad. *)

From Stdlib Require Import List String Ascii ZArith Bool Lia Arith.
From Stdlib Require Import DecimalString.
Import ListNotations.
Open Scope string_scope.

Set Implicit Arguments.
Set Warnings "-register-all".

(** ** Python values used by the scraper *)

(** [str.isspace] on one code point below 256. *)
Definition isspace (c : ascii) : bool :=
  let n := nat_of_ascii c in
  (((9 <=? n) && (n <=? 13)) || ((28 <=? n) && (n <=? 32))
   || (n =? 133) || (n =? 160))%nat.

Fixpoint lstrip_chars (l : list ascii) : list ascii :=
  match l with
  | [] => []
  | c :: l' => if isspace c then lstrip_chars l' else l
  end.

(** [s.strip()]: leading and trailing whitespace removed. *)
Definition strip (s : string) : string :=
  string_of_list_ascii
    (rev (lstrip_chars (rev (lstrip_chars (list_ascii_of_string s))))).

(** Truth value of a [str]: non-empty. *)
Definition truthy (s : string) : bool :=
  match s with
  | EmptyString => false
  | String _ _ => true
  end.

(** Truth value of a value that is a [str] or [None]. *)
Definition truthy_opt (v : option string) : bool :=
  match v with
  | None => false
  | Some s => truthy s
  end.

(** [s[:n]] *)
Definition slice_to (n : nat) (s : string) : string := substring 0 n s.

(** [str(n)] for an [int]. *)
Definition str_of_Z (z : Z) : string := NilZero.string_of_int (Z.to_int z).

(** [range(n)] *)
Definition range (n : Z) : list Z := map Z.of_nat (seq 0 (Z.to_nat n)).

(** ** Exceptions *)

(** The exception classes the module meets; the Selenium ones all derive
    from [WebDriverException], everything derives from [Exception]. *)
Inductive exn_class : Type :=
| Exception
| WebDriverException
| NoSuchElementException
| TimeoutException
| StaleElementReferenceException
| ValueError
| OverflowError.

Definition exn_class_eqb (c d : exn_class) : bool :=
  match c, d with
  | Exception, Exception
  | WebDriverException, WebDriverException
  | NoSuchElementException, NoSuchElementException
  | TimeoutException, TimeoutException
  | StaleElementReferenceException, StaleElementReferenceException
  | ValueError, ValueError
  | OverflowError, OverflowError => true
  | _, _ => false
  end.

(** [issubclass c d] *)
Definition issubclass (c d : exn_class) : bool :=
  match d with
  | Exception => true
  | WebDriverException =>
      match c with
      | WebDriverException | NoSuchElementException | TimeoutException
      | StaleElementReferenceException => true
      | _ => false
      end
  | _ => exn_class_eqb c d
  end.

(** A raised exception: its class and [str(e)]. *)
Record exn : Type := Raise { exn_type : exn_class; exn_str : string }.

Definition isinstance (e : exn) (c : exn_class) : bool :=
  issubclass (exn_type e) c.

Arguments isinstance : simpl never.

(** Outcome of an expression that may raise. *)
Definition result (A : Type) : Type := (exn + A)%type.

(** ** Selenium objects *)

(** The locator kinds of [selenium.webdriver.common.by.By] (plain strings). *)
Module By.
Definition CLASS_NAME : string := "class name".
Definition TAG_NAME : string := "tag name".
Definition CSS_SELECTOR : string := "css selector".
End By.

(** A [WebElement] as the module uses it: its [text] property, its
    [get_attribute] method ([None] when the attribute is missing) and its
    [find_element] method.  Each may raise.  The module asks each question
    of each element at most once, so one answer per question is enough. *)
Inductive WebElement : Type :=
  mkWebElement {
    text : result string;
    get_attribute : string -> result (option string);
    find_element : string -> string -> result WebElement
  }.

(** The browser session and the clock, as an interface over an abstract
    world [W].  Every operation may change the world and may raise. *)
Class WebDriver (W : Type) : Type := {
  (** [Service(); webdriver.Chrome(service=..., options=...)] *)
  drv_Chrome : W -> result unit * W;
  (** [driver.set_page_load_timeout(t)] *)
  drv_set_page_load_timeout : Z -> W -> result unit * W;
  (** [driver.get(url)] *)
  drv_get : string -> W -> result unit * W;
  (** [WebDriverWait(driver, t).until(EC.presence_of_element_located((by, v)))] *)
  drv_wait_presence : Z -> string -> string -> W -> result unit * W;
  (** [driver.find_element(by, v)] *)
  drv_find_element : string -> string -> W -> result WebElement * W;
  (** [driver.find_elements(by, v)] *)
  drv_find_elements : string -> string -> W -> result (list WebElement) * W;
  (** [driver.quit()] *)
  drv_quit : W -> result unit * W;
  (** [datetime.now().isoformat()] *)
  clock_now : W -> string * W
}.

(** ** Observable events *)

Inductive level : Type := DEBUG | INFO | WARNING | ERROR.

(** What a run leaves behind: calls of the logger, [time.sleep] calls, page
    navigations ([driver.get]), and the entry of a traced method (used to
    count how often the extraction pipeline is invoked). *)
Inductive event : Type :=
| Log (lvl : level) (msg : string)
| Sleep (secs : Z)
| Nav (url : string)
| Call (method : string).

Definition is_call (ev : event) : bool :=
  match ev with Call _ => true | _ => false end.

Definition is_sleep (ev : event) : bool :=
  match ev with Sleep _ => true | _ => false end.

Definition is_nav (ev : event) : bool :=
  match ev with Nav _ => true | _ => false end.

(** ** The monad *)

Record state (W : Type) : Type := mkState { world : W; trace : list event }.

Definition M (W A : Type) : Type := state W -> result A * state W.

Section Monad.
Context {W : Type}.

Definition ret {A} (a : A) : M W A := fun s => (inr a, s).

Definition raise {A} (e : exn) : M W A := fun s => (inl e, s).

Definition bind {A B} (m : M W A) (k : A -> M W B) : M W B :=
  fun s =>
    match m s with
    | (inr a, s') => k a s'
    | (inl e, s') => (inl e, s')
    end.

(** A pure expression that may raise, run inside the monad. *)
Definition lift {A} (r : result A) : M W A := fun s => (r, s).

Definition emit (ev : event) : M W unit :=
  fun s => (inr tt, {| world := world s; trace := trace s ++ [ev] |}).

(** A browser operation run on the world. *)
Definition on_world {A} (op : W -> result A * W) : M W A :=
  fun s =>
    let (r, w) := op (world s) in
    (r, {| world := w; trace := trace s |}).

(** [try: m  except c1: h1 ... except cn: hn]: the first clause whose
    class the exception is an instance of handles it; an exception of a
    handler propagates. *)
Fixpoint dispatch {A} (handlers : list (exn_class * (exn -> M W A)))
         (e : exn) : M W A :=
  match handlers with
  | [] => raise e
  | (c, h) :: rest => if isinstance e c then h e else dispatch rest e
  end.

Definition try_except {A} (m : M W A)
           (handlers : list (exn_class * (exn -> M W A))) : M W A :=
  fun s =>
    match m s with
    | (inr a, s') => (inr a, s')
    | (inl e, s') => dispatch handlers e s'
    end.

(** [try: m  finally: f]: an exception of [f] replaces the outcome of [m]. *)
Definition try_finally {A} (m : M W A) (f : M W unit) : M W A :=
  fun s =>
    match m s with
    | (r, s') =>
        match f s' with
        | (inr _, s'') => (r, s'')
        | (inl e, s'') => (inl e, s'')
        end
    end.
End Monad.

Notation "x <- m ;; k" := (bind m (fun x => k))
  (at level 61, m at next level, right associativity).
Notation "m ;; k" := (bind m (fun _ => k))
  (at level 61, right associativity).

(** ** The program *)

(** [class Article]: a dataclass; [link] and [image] come from
    [get_attribute] and may be [None]; [scrape_date] defaults to [None]. *)
Record Article : Type := mkArticle {
  title : string;
  kicker : string;
  link : option string;
  image : option string;
  scrape_date : option string
}.

(** The [article_info] dict of [_scrape_with_selenium]: four fixed keys. *)
Record ArticleInfo : Type := mkInfo {
  info_title : string;
  info_link : option string;
  info_kicker : string;
  info_image : option string
}.

Definition set_title (d : ArticleInfo) (v : string) : ArticleInfo :=
  mkInfo v (info_link d) (info_kicker d) (info_image d).
Definition set_link (d : ArticleInfo) (v : option string) : ArticleInfo :=
  mkInfo (info_title d) v (info_kicker d) (info_image d).
Definition set_kicker (d : ArticleInfo) (v : string) : ArticleInfo :=
  mkInfo (info_title d) (info_link d) v (info_image d).
Definition set_image (d : ArticleInfo) (v : option string) : ArticleInfo :=
  mkInfo (info_title d) (info_link d) (info_kicker d) v.

(** The attributes of [NewsScraperProcessor] the scraping methods read. *)
Record NewsScraperProcessor : Type := mkProcessor {
  base_url : string;
  max_retries : Z;
  retry_delay : Z
}.

(** [NewsScraperProcessor.__init__] *)
Definition init_processor : NewsScraperProcessor :=
  {| base_url := "https://www.yogonet.com/international/";
     max_retries := 3;
     retry_delay := 5 |}.

Definition selector : Type := (string * string)%type.

(** The largest number of seconds [time.sleep] accepts: its nanoseconds
    must fit a C [int64] ([2^63 - 1] nanoseconds). *)
Definition max_sleep : Z := 9223372036.

(** A length [time.sleep] accepts. *)
Definition valid_sleep (secs : Z) : Prop := (0 <= secs <= max_sleep)%Z.

(** [s.split()]: the maximal runs of non-whitespace characters.  [word]
    holds the characters of the run being read. *)
Definition flush (word : list ascii) : list (list ascii) :=
  match word with
  | [] => []
  | _ :: _ => [word]
  end.

Fixpoint split_chars (l word : list ascii) : list (list ascii) :=
  match l with
  | [] => flush word
  | c :: l' =>
      if isspace c
      then (flush word ++ split_chars l' [])%list
      else split_chars l' (word ++ [c])%list
  end.

Definition split (s : string) : list string :=
  map string_of_list_ascii (split_chars (list_ascii_of_string s) []).

(** [c.isupper()] for one code point below 256: an uppercase letter. *)
Definition isupper (c : ascii) : bool :=
  let n := nat_of_ascii c in
  (((65 <=? n) && (n <=? 90)) || ((192 <=? n) && (n <=? 214))
   || ((216 <=? n) && (n <=? 222)))%nat.

(** [word and word[0].isupper()] *)
Definition is_capital_word (word : string) : bool :=
  match word with
  | EmptyString => false
  | String c _ => isupper c
  end.

(** One row of the data frame of [process_data]: the attributes of the
    article ([vars(article)]) and the three computed columns. *)
Record Row : Type := mkRow {
  row_article : Article;
  title_word_count : nat;
  title_char_count : nat;
  capital_words : list string
}.

(** The three column assignments of lines 267-271, on one row. *)
Definition add_metrics (a : Article) : Row :=
  {| row_article := a;
     title_word_count := List.length (split (title a));
     title_char_count := String.length (title a);
     capital_words := filter is_capital_word (split (title a)) |}.

Section Program.
Context {W : Type} `{WebDriver W}.

(** *** Primitives *)

Definition logger (lvl : level) (msg : string) : M W unit :=
  emit (Log lvl msg).

(** [time.sleep(secs)] for an [int]: the length is first converted to
    nanoseconds in a C [int64], which fails with [OverflowError] beyond
    [max_sleep] seconds either way; then a negative length is a
    [ValueError]. *)
Definition time_sleep (secs : Z) : M W unit :=
  if ((secs <? - max_sleep) || (max_sleep <? secs))%Z
  then raise (Raise OverflowError
                    "timestamp too large to convert to C _PyTime_t")
  else if (secs <? 0)%Z
       then raise (Raise ValueError "sleep length must be non-negative")
       else emit (Sleep secs).

Definition driver_get (url : string) : M W unit :=
  emit (Nav url) ;; on_world (drv_get url).

Definition driver_find_element (by_ value : string) : M W WebElement :=
  on_world (drv_find_element by_ value).

Definition driver_find_elements (by_ value : string)
  : M W (list WebElement) :=
  on_world (drv_find_elements by_ value).

Definition wait_presence (timeout : Z) (by_ value : string) : M W unit :=
  on_world (drv_wait_presence timeout by_ value).

Definition datetime_now_isoformat : M W string :=
  on_world (fun w => let (t, w') := clock_now w in (inr t, w')).

(** Entry of a method whose invocations are counted. *)
Definition method {A} (name : string) (body : M W A) : M W A :=
  emit (Call name) ;; body.

(** [for x in xs: body], where the body either appends one value to the
    accumulated list ([Some]) or leaves it alone ([None], also after
    [continue]). *)
Fixpoint for_append {A B} (body : A -> M W (option B)) (xs : list A)
         (acc : list B) : M W (list B) :=
  match xs with
  | [] => ret acc
  | x :: xs' =>
      r <- body x ;;
      for_append body xs'
        (match r with Some b => acc ++ [b] | None => acc end)
  end.

(** *** [Article] *)

(** [Article.__post_init__] *)
Definition post_init (self : Article) : M W Article :=
  now <- datetime_now_isoformat ;;
  ret (mkArticle (title self) (kicker self) (link self) (image self)
                 (Some now)).

(** The generated [Article.__init__]: stores the arguments, then runs
    [__post_init__]. *)
Definition new_Article (title_ kicker_ : string)
           (link_ image_ scrape_date_ : option string) : M W Article :=
  post_init (mkArticle title_ kicker_ link_ image_ scrape_date_).

(** *** [_create_driver] (a context manager wrapped around [body]) *)
Definition _create_driver {A} (body : M W A) : M W A :=
  fun s =>
    match on_world drv_Chrome s with
    | (inl e, s1) => (inl e, s1)
    | (inr _, s1) =>
        try_finally
          (on_world (drv_set_page_load_timeout 30) ;; body)
          (on_world drv_quit) s1
    end.

(** *** [_safe_find_element] *)
Definition _safe_find_element (container : WebElement) (by_ value : string)
           (default : option string) : M W (option string) :=
  try_except
    (element <- lift (find_element container by_ value) ;;
     if negb (by_ =? By.TAG_NAME)
     then (t <- lift (text element) ;; ret (Some (strip t)))
     else lift (get_attribute element "src"))
    [ (NoSuchElementException, fun _ => ret default);
      (Exception, fun e =>
         logger DEBUG ("Error finding element " ++ value ++ ": "
                       ++ exn_str e) ;;
         ret default) ].

(** *** The kicker fallback loop

    Both loops over a selector list (lines 185-193 on a container,
    lines 231-239 on the driver) have the same body; [find] is the
    [find_element] of the object searched. *)

(** One strategy, the [try] part up to the test: the stripped text of the
    element found, or [None] when the lookup raised
    [NoSuchElementException]. *)
Definition selector_text (find : string -> string -> M W WebElement)
           (sel : selector) : M W (option string) :=
  try_except
    (element <- find (fst sel) (snd sel) ;;
     t <- lift (text element) ;;
     ret (Some (strip t)))
    [ (NoSuchElementException, fun _ => ret None) ].

Fixpoint kicker_loop (find : string -> string -> M W WebElement)
         (selectors : list selector) (article_info : ArticleInfo)
  : M W ArticleInfo :=
  match selectors with
  | [] => ret article_info
  | sel :: rest =>
      r <- selector_text find sel ;;
      match r with
      | Some kicker_text =>
          if truthy kicker_text
          then ret (set_kicker article_info kicker_text)   (* break *)
          else kicker_loop find rest article_info
      | None => kicker_loop find rest article_info          (* continue *)
      end
  end.

Definition kicker_selectors : list selector :=
  [ (By.CLASS_NAME, "volanta");
    (By.CLASS_NAME, "volanta fuente_roboto_slab");
    (By.CLASS_NAME, "volanta_noticia");
    (By.CLASS_NAME, "volanta_noticia fuente_roboto_slab");
    (By.CSS_SELECTOR, ".volanta_titulo .volanta");
    (By.CSS_SELECTOR, "div.volanta") ].

Definition article_kicker_selectors : list selector :=
  [ (By.CLASS_NAME, "volanta_noticia");
    (By.CLASS_NAME, "volanta_noticia fuente_roboto_slab");
    (By.CSS_SELECTOR,
     ".slot.contenido_fijo.titulo_de_noticia .volanta_noticia");
    (By.CSS_SELECTOR, ".titulo_de_noticia .volanta_noticia") ].

Definition container_find (container : WebElement) (by_ value : string)
  : M W WebElement :=
  lift (find_element container by_ value).

(** *** [_scrape_with_selenium], first loop (lines 157-200) *)

(** Lines 166-171: the mandatory title link.  [None] is [continue]. *)
Definition title_link (container : WebElement) (article_info : ArticleInfo)
  : M W (option ArticleInfo) :=
  try_except
    (titulo <- lift (find_element container By.CLASS_NAME "titulo") ;;
     link_element <- lift (find_element titulo By.TAG_NAME "a") ;;
     t <- lift (text link_element) ;;
     href <- lift (get_attribute link_element "href") ;;
     ret (Some (set_link (set_title article_info (strip t)) href)))
    [ (NoSuchElementException, fun _ => ret None) ].

(** The body of [for container in article_containers]: the dict appended
    to [article_data], or [None] when the item is skipped. *)
Definition extract_item (container : WebElement)
  : M W (option ArticleInfo) :=
  try_except
    (r <- title_link container (mkInfo "" (Some "") "" (Some "")) ;;
     match r with
     | None => ret None
     | Some article_info =>
         if negb (truthy (info_title article_info))
         then ret None
         else
           article_info <- kicker_loop (container_find container)
                                       kicker_selectors article_info ;;
           img <- _safe_find_element container By.TAG_NAME "img"
                                     (Some "") ;;
           ret (Some (set_image article_info img))
     end)
    [ (Exception, fun e =>
         logger ERROR ("Error extracting initial article data: "
                       ++ exn_str e) ;;
         ret None) ].

(** *** [_scrape_with_selenium], second loop (lines 202-251) *)

(** The link as a [str]; read only where the link is truthy. *)
Definition link_url (article_info : ArticleInfo) : string :=
  match info_link article_info with
  | Some url => url
  | None => ""
  end.

(** Line 204: [not article_info['kicker'] and article_info['link']] *)
Definition needs_recovery (article_info : ArticleInfo) : bool :=
  negb (truthy (info_kicker article_info))
  && truthy_opt (info_link article_info).

(** Lines 205-239, the body of the [if].  [None] is [continue]. *)
Definition recover_kicker (article_info : ArticleInfo)
  : M W (option ArticleInfo) :=
  logger INFO ("No kicker found in main page for "
               ++ slice_to 50 (info_title article_info)
               ++ "... Checking article page...") ;;
  loaded <- try_except
              (driver_get (link_url article_info) ;; ret true)
              [ (TimeoutException, fun _ =>
                   logger ERROR ("Timeout while accessing article page: "
                                 ++ link_url article_info) ;;
                   ret false);
                (WebDriverException, fun e =>
                   logger ERROR
                     ("WebDriver error while accessing article page: "
                      ++ exn_str e) ;;
                   ret false) ] ;;
  if negb loaded then ret None
  else
    ready <- try_except
               (wait_presence 10 By.CLASS_NAME "contenido_noticia" ;;
                ret true)
               [ (TimeoutException, fun _ =>
                    logger ERROR
                      ("Timeout waiting for article content to load: "
                       ++ link_url article_info) ;;
                    ret false) ] ;;
    if negb ready then ret None
    else
      article_info <- kicker_loop driver_find_element
                                  article_kicker_selectors article_info ;;
      ret (Some article_info).

(** The body of [for article_info in article_data]: the [Article]
    appended to [articles], or [None] when nothing is appended. *)
Definition process_article (article_info : ArticleInfo)
  : M W (option Article) :=
  try_except
    (r <- (if needs_recovery article_info
           then recover_kicker article_info
           else ret (Some article_info)) ;;
     match r with
     | None => ret None
     | Some article_info =>
         article <- new_Article (info_title article_info)
                                (info_kicker article_info)
                                (info_link article_info)
                                (info_image article_info) None ;;
         logger INFO ("Processed article: "
                      ++ slice_to 50 (info_title article_info)
                      ++ "... | Kicker: "
                      ++ slice_to 50 (info_kicker article_info)
                      ++ "...") ;;
         ret (Some article)
     end)
    [ (Exception, fun e =>
         logger ERROR ("Error processing article page: " ++ exn_str e) ;;
         ret None) ].

(** *** [_scrape_with_selenium] *)

(** The [try] block inside the [with] statement. *)
Definition scrape_page (self : NewsScraperProcessor) : M W (list Article) :=
  try_except
    (logger INFO ("Accessing URL: " ++ base_url self) ;;
     try_except
       (driver_get (base_url self))
       [ (TimeoutException, fun e =>
            logger ERROR ("Timeout while accessing " ++ base_url self) ;;
            raise e);
         (WebDriverException, fun e =>
            logger ERROR ("WebDriver error while accessing "
                          ++ base_url self ++ ": " ++ exn_str e) ;;
            raise e) ] ;;
     try_except
       (wait_presence 20 By.CLASS_NAME "contenedor_dato_modulo")
       [ (TimeoutException, fun e =>
            logger ERROR "Timeout waiting for article containers to load" ;;
            raise e) ] ;;
     article_containers <- driver_find_elements By.CLASS_NAME
                                                "contenedor_dato_modulo" ;;
     logger INFO ("Found "
                  ++ str_of_Z (Z.of_nat (List.length article_containers))
                  ++ " news items") ;;
     article_data <- for_append extract_item article_containers [] ;;
     for_append process_article article_data [])
    [ (Exception, fun e =>
         logger ERROR ("Error during scraping: " ++ exn_str e) ;;
         raise e) ].

Definition _scrape_with_selenium (self : NewsScraperProcessor)
  : M W (list Article) :=
  method "_scrape_with_selenium" (_create_driver (scrape_page self)).

(** *** [scrape_news] *)

(** One turn of [for attempt in range(self.max_retries)]: [Some articles]
    is [return articles], [None] goes on to the next attempt. *)
Definition attempt_once (self : NewsScraperProcessor) (attempt : Z)
  : M W (option (list Article)) :=
  try_except
    (articles <- _scrape_with_selenium self ;;
     match articles with
     | _ :: _ => ret (Some articles)
     | [] =>
         logger WARNING ("Attempt " ++ str_of_Z (attempt + 1)
                         ++ " yielded no articles") ;;
         ret None
     end)
    [ (Exception, fun e =>
         logger ERROR ("Attempt " ++ str_of_Z (attempt + 1) ++ " failed: "
                       ++ exn_str e) ;;
         if (attempt <? max_retries self - 1)%Z
         then
           logger INFO ("Retrying in " ++ str_of_Z (retry_delay self)
                        ++ " seconds...") ;;
           time_sleep (retry_delay self) ;;
           ret None
         else
           logger ERROR "All retry attempts failed" ;;
           raise e) ].

Fixpoint scrape_news_loop (self : NewsScraperProcessor) (attempts : list Z)
  : M W (list Article) :=
  match attempts with
  | [] => ret []
  | attempt :: rest =>
      r <- attempt_once self attempt ;;
      match r with
      | Some articles => ret articles
      | None => scrape_news_loop self rest
      end
  end.

Definition scrape_news (self : NewsScraperProcessor) : M W (list Article) :=
  scrape_news_loop self (range (max_retries self)).
(** *** [_get_article_kicker] *)

(** The loop of lines 115-122: [Some kicker_text] is [return kicker_text],
    [None] is falling out of the loop. *)
Fixpoint first_kicker (find : string -> string -> M W WebElement)
         (selectors : list selector) : M W (option string) :=
  match selectors with
  | [] => ret None
  | sel :: rest =>
      r <- selector_text find sel ;;
      match r with
      | Some kicker_text =>
          if truthy kicker_text
          then ret (Some kicker_text)
          else first_kicker find rest
      | None => first_kicker find rest
      end
  end.

(** The selector list of lines 108-113 is the list of lines 224-229. *)
Definition _get_article_kicker (url : string) : M W string :=
  try_except
    (driver_get url ;;
     wait_presence 10 By.CLASS_NAME "volanta_noticia" ;;
     r <- first_kicker driver_find_element article_kicker_selectors ;;
     match r with
     | Some kicker_text => ret kicker_text
     | None => ret ""
     end)
    [ (Exception, fun e =>
         logger ERROR ("Error getting article kicker from " ++ url ++ ": "
                       ++ exn_str e) ;;
         ret "") ].
(** *** [process_data]: [None], or the data frame as its list of rows *)
Definition process_data (articles : list Article) : M W (option (list Row)) :=
  match articles with
  | [] =>
      logger ERROR "No articles to process" ;;
      ret None
  | _ :: _ => ret (Some (map add_metrics articles))
  end.
End Program.

(** ** Storage and the entry point *)

(** The warehouse, the environment and the file system, as an interface
    over the world.  What the module prints is not recorded. *)
Class Storage (W : Type) : Type := {
  (** [os.getenv(name)] *)
  os_getenv : string -> W -> option string;
  (** [bigquery.Client()] *)
  bq_Client : W -> result unit * W;
  (** [client.load_table_from_dataframe(df, table_ref, job_config=...)]
      followed by [job.result()] *)
  bq_load : list Row -> string -> W -> result unit * W;
  (** The [try] block of [save_to_csv]: the output directory, the
      timestamped file name and [df.to_csv]. *)
  csv_write : list Row -> W -> result unit * W
}.

(** How a run of [main] ends: by returning, or by [sys.exit(code)].  The
    latter raises [SystemExit], which [except Exception] does not catch. *)
Inductive ending : Type :=
| Returned
| Exited (code : Z).

Section Entry.
Context {W : Type} `{WebDriver W} `{Storage W}.

(** [f"{os.getenv(name)}"] *)
Definition env_text (name : string) : M W string :=
  fun s =>
    (inr (match os_getenv name (world s) with
          | Some v => v
          | None => "None"
          end), s).

(** [upload_to_bigquery]; [df] is [None] or the frame as its rows. *)
Definition upload_to_bigquery (df : option (list Row)) : M W bool :=
  match df with
  | None | Some [] =>
      logger ERROR "No data to upload to BigQuery" ;;
      ret false
  | Some rows =>
      try_except
        (on_world bq_Client ;;
         project <- env_text "GCP_PROJECT_ID" ;;
         dataset <- env_text "BQ_DATASET_ID" ;;
         table <- env_text "BQ_TABLE_ID" ;;
         on_world (bq_load rows (project ++ "." ++ dataset ++ "." ++ table)) ;;
         logger INFO ("Successfully uploaded "
                      ++ str_of_Z (Z.of_nat (List.length rows))
                      ++ " rows to BigQuery") ;;
         ret true)
        [ (Exception, fun e =>
             logger ERROR ("Error uploading to BigQuery: " ++ exn_str e) ;;
             ret false) ]
  end.

(** [save_to_csv]: whatever the [try] block raises is re-raised. *)
Definition save_to_csv (rows : list Row) : M W unit :=
  try_except (on_world (csv_write rows))
             [ (Exception, fun e => raise e) ].

(** [main] *)
Definition main : M W ending :=
  try_except
    (logger INFO "Starting news scraping..." ;;
     articles <- scrape_news init_processor ;;
     match articles with
     | _ :: _ =>
         logger INFO ("Successfully scraped "
                      ++ str_of_Z (Z.of_nat (List.length articles))
                      ++ " articles") ;;
         df <- process_data articles ;;
         match df with
         | Some rows =>
             success <- upload_to_bigquery (Some rows) ;;
             if negb success
             then
               logger ERROR "Failed to upload data to BigQuery" ;;
               ret (Exited 1)
             else
               save_to_csv rows ;;
               ret Returned
         | None => ret Returned
         end
     | [] =>
         logger ERROR "No articles were scraped" ;;
         ret (Exited 1)
     end)
    [ (Exception, fun e =>
         logger ERROR ("Main process error: " ++ exn_str e) ;;
         ret (Exited 1)) ].
End Entry.

(** ** A scripted browser

    A concrete [WebDriver]: a fixed site (one page per URL), the URL the
    session is on, and a clock that ticks each time it is read.  It is used
    to run the program on concrete listings. *)
Module Sim.
Definition no_such {A} : result A :=
  inl (Raise NoSuchElementException "no such element").

Fixpoint assoc {A} (k : string) (l : list (string * A)) : option A :=
  match l with
  | [] => None
  | (k', v) :: l' => if k =? k' then Some v else assoc k l'
  end.

Fixpoint child (by_ value : string) (l : list (selector * WebElement))
  : result WebElement :=
  match l with
  | [] => no_such
  | ((b, v), e) :: l' =>
      if (by_ =? b) && (value =? v) then inr e else child by_ value l'
  end.

(** An element with the given text, attributes and descendants. *)
Definition element (txt : string) (attrs : list (string * string))
           (children : list (selector * WebElement)) : WebElement :=
  mkWebElement (inr txt) (fun a => inr (assoc a attrs))
               (fun by_ value => child by_ value children).

Record Page : Type := mkPage {
  page_load : result unit;
  page_children : list (selector * WebElement);
  page_items : list WebElement
}.

Record Browser : Type := mkBrowser {
  site : list (string * Page);
  current : option Page;
  ticks : nat
}.

Definition unreachable_page : Page :=
  mkPage (inl (Raise WebDriverException "net::ERR_NAME_NOT_RESOLVED"))
         [] [].

Definition visit (url : string) (b : Browser) : result unit * Browser :=
  let p := match assoc url (site b) with
           | Some p => p
           | None => unreachable_page
           end in
  (page_load p, mkBrowser (site b) (Some p) (ticks b)).

Definition find_on_page (by_ value : string) (b : Browser)
  : result WebElement :=
  match current b with
  | Some p => child by_ value (page_children p)
  | None => no_such
  end.

Definition wait (by_ value : string) (b : Browser) : result unit :=
  match find_on_page by_ value b with
  | inr _ => inr tt
  | inl _ => inl (Raise TimeoutException "Message: ")
  end.

#[global] Instance browser_driver : WebDriver Browser := {|
  drv_Chrome := fun b => (inr tt, b);
  drv_set_page_load_timeout := fun _ b => (inr tt, b);
  drv_get := visit;
  drv_wait_presence := fun _ by_ value b => (wait by_ value b, b);
  drv_find_element := fun by_ value b => (find_on_page by_ value b, b);
  drv_find_elements := fun _ _ b =>
    (inr (match current b with
          | Some p => page_items p
          | None => []
          end), b);
  drv_quit := fun b => (inr tt, b);
  clock_now := fun b =>
    ("T" ++ str_of_Z (Z.of_nat (ticks b)),
     mkBrowser (site b) (current b) (S (ticks b)))
|}.

Definition start (pages : list (string * Page)) : state Browser :=
  mkState (mkBrowser pages None 0) [].

(** A listing item: the title link, an optional container kicker and an
    optional image. *)
Definition item (title_ href : string) (kicker_ : option string)
           (img : option WebElement) : WebElement :=
  element ""
    [] ([ ((By.CLASS_NAME, "titulo"),
           element title_ []
             [ ((By.TAG_NAME, "a"),
                element title_ [("href", href)] []) ]) ]
        ++ match kicker_ with
           | Some k => [ ((By.CLASS_NAME, "volanta"), element k [] []) ]
           | None => []
           end
        ++ match img with
           | Some e => [ ((By.TAG_NAME, "img"), e) ]
           | None => []
           end).

Definition listing (items : list WebElement) : Page :=
  mkPage (inr tt)
         [ ((By.CLASS_NAME, "contenedor_dato_modulo"), element "" [] []) ]
         items.

Definition home : string := base_url init_processor.

(** Item A carries its kicker; item B does not, and its own page exposes
    one under the third page-scoped selector. *)
Definition two_items : list (string * Page) :=
  [ (home,
     listing [ item "A" "https://x/a" (Some "Breaking") None;
               item "B" "https://x/b" None None ]);
    ("https://x/b",
     mkPage (inr tt)
            [ ((By.CLASS_NAME, "contenido_noticia"), element "" [] []);
              ((By.CSS_SELECTOR,
                ".slot.contenido_fijo.titulo_de_noticia .volanta_noticia"),
               element " Recovered " [] []) ]
            []) ].

(** One item without a kicker whose own page times out on navigation. *)
Definition detail_times_out : list (string * Page) :=
  [ (home, listing [ item "A" "https://x/a" None None ]);
    ("https://x/a",
     mkPage (inl (Raise TimeoutException "Message: timeout")) [] []) ].

(** One item without a kicker whose own page loads but never shows the
    content marker. *)
Definition detail_never_ready : list (string * Page) :=
  [ (home, listing [ item "A" "https://x/a" None None ]);
    ("https://x/a", mkPage (inr tt) [] []) ].

(** The listing is ready but holds no items. *)
Definition empty_listing : list (string * Page) :=
  [ (home, listing []) ].

(** A session that cannot reach anything: every navigation is a
    session fault. *)
Inductive Offline : Type := offline.

#[global] Instance offline_driver : WebDriver Offline := {|
  drv_Chrome := fun w => (inr tt, w);
  drv_set_page_load_timeout := fun _ w => (inr tt, w);
  drv_get := fun _ w =>
    (inl (Raise WebDriverException "net::ERR_CONNECTION_REFUSED"), w);
  drv_wait_presence := fun _ _ _ w =>
    (inl (Raise TimeoutException "Message: "), w);
  drv_find_element := fun _ _ w => (no_such, w);
  drv_find_elements := fun _ _ w => (inr [], w);
  drv_quit := fun w => (inr tt, w);
  clock_now := fun w => ("T", w)
|}.

(** An item whose title link holds only blanks, though its [href] is set. *)
Definition blank_title_item : WebElement :=
  element ""
    [] [ ((By.CLASS_NAME, "titulo"),
          element "" []
            [ ((By.TAG_NAME, "a"),
               element "   " [("href", "https://x/blank")] []) ]);
         ((By.CLASS_NAME, "volanta"), element "Sports" [] []) ].

(** A warehouse that accepts every load and a writable file system; a
    warehouse that refuses every load is obtained with [refusing]. *)
Definition storage (refusing : bool) : Storage Browser := {|
  os_getenv := fun _ _ => None;
  bq_Client := fun b => (inr tt, b);
  bq_load := fun _ _ b =>
    (if refusing
     then inl (Raise Exception "403 Access Denied")
     else inr tt, b);
  csv_write := fun _ b => (inr tt, b)
|}.

(** The listing loads but no item ever appears. *)
Definition listing_never_ready : list (string * Page) :=
  [ (home, mkPage (inr tt) [] []) ].


Definition refused : exn :=
  Raise WebDriverException "net::ERR_CONNECTION_REFUSED".


(** An [img] element without a [src] attribute. *)
Definition img_without_src : WebElement := element "" [] [].
End Sim.

(** ** Counting browser sessions

    Any driver can be wrapped into one that also counts the sessions
    created (the successful calls of [webdriver.Chrome]), the calls of
    [driver.quit], and the largest number of sessions open at once; every
    operation answers exactly as the driver inside does. *)
Record Counted (W : Type) : Type := mkCounted {
  inner : W;
  created : nat;
  quits : nat;
  peak : nat
}.

Definition counting {W A} (op : W -> A * W) (c : Counted W)
  : A * Counted W :=
  let (r, w) := op (inner c) in
  (r, mkCounted w (created c) (quits c) (peak c)).

Definition counting_Chrome {W} `{WebDriver W} (c : Counted W)
  : result unit * Counted W :=
  let (r, w) := drv_Chrome (inner c) in
  match r with
  | inr _ =>
      (r, mkCounted w (S (created c)) (quits c)
                    (Nat.max (peak c) (S (created c) - quits c)))
  | inl _ => (r, mkCounted w (created c) (quits c) (peak c))
  end.

Definition counting_quit {W} `{WebDriver W} (c : Counted W)
  : result unit * Counted W :=
  let (r, w) := drv_quit (inner c) in
  (r, mkCounted w (created c) (S (quits c)) (peak c)).

#[global] Instance counted_driver {W} `{WebDriver W}
  : WebDriver (Counted W) := {|
  drv_Chrome := counting_Chrome;
  drv_set_page_load_timeout := fun t => counting (drv_set_page_load_timeout t);
  drv_get := fun url => counting (drv_get url);
  drv_wait_presence := fun t by_ value =>
    counting (drv_wait_presence t by_ value);
  drv_find_element := fun by_ value => counting (drv_find_element by_ value);
  drv_find_elements := fun by_ value =>
    counting (drv_find_elements by_ value);
  drv_quit := counting_quit;
  clock_now := counting clock_now
|}.

(** Browsing: no session is created or quit, the trace only grows. *)
Definition browsing {W} (s s' : state (Counted W)) : Prop :=
  created (world s') = created (world s)
  /\ quits (world s') = quits (world s)
  /\ peak (world s') = peak (world s)
  /\ exists evs, trace s' = (trace s ++ evs)%list.

(** Sessions are accounted for: as many more quits as sessions created,
    no more sessions than pipeline entries and, starting without an open
    session, never two sessions open at once. *)
Definition accounted {W} (s s' : state (Counted W)) : Prop :=
  created (world s') + quits (world s)
  = quits (world s') + created (world s)
  /\ created (world s') + List.length (filter is_call (trace s))
     <= created (world s) + List.length (filter is_call (trace s'))
  /\ (created (world s) = quits (world s) ->
      peak (world s') <= Nat.max (peak (world s)) 1).

Definition count_calls (evs : list event) : nat :=
  List.length (filter is_call evs).

Definition sleeps (evs : list event) : list event := filter is_sleep evs.

(** The events a computation adds to the trace. *)
Definition new_events {W A} (m : M W A) (s : state W) : list event :=
  skipn (List.length (trace s)) (trace (snd (m s))).

(** ** Vocabulary of the statements *)

(** The state [s] with further events appended to its trace. *)
Definition add_events {W} (s : state W) (evs : list event) : state W :=
  mkState (world s) (trace s ++ evs)%list.

(** The messages [scrape_news] logs. *)
Definition msg_no_articles (attempt : Z) : string :=
  "Attempt " ++ str_of_Z (attempt + 1) ++ " yielded no articles".

Definition msg_failed (attempt : Z) (e : exn) : string :=
  "Attempt " ++ str_of_Z (attempt + 1) ++ " failed: " ++ exn_str e.

Definition msg_retrying (self : NewsScraperProcessor) : string :=
  "Retrying in " ++ str_of_Z (retry_delay self) ++ " seconds...".

(** The state in which the next attempt starts, after attempt [attempt]
    raised [e] and left [s1]: the two logs and the sleep of lines 91-94. *)
Definition retry_state {W} (self : NewsScraperProcessor) (attempt : Z)
           (e : exn) (s1 : state W) : state W :=
  add_events s1 [ Log ERROR (msg_failed attempt e);
                  Log INFO (msg_retrying self);
                  Sleep (retry_delay self) ].

(** The elements of the second list are obtained, in order, from some of
    the elements of the first, each through [R]. *)
Inductive picked {A B} (R : A -> B -> Prop) : list A -> list B -> Prop :=
| picked_nil : picked R [] []
| picked_skip : forall x xs bs, picked R xs bs -> picked R (x :: xs) bs
| picked_take : forall x xs b bs,
    R x b -> picked R xs bs -> picked R (x :: xs) (b :: bs).

(** A list of characters that does not start with whitespace. *)
Definition lstrip_fixed (l : list ascii) : Prop :=
  match l with
  | [] => True
  | c :: _ => isspace c = false
  end.

(** A string without leading or trailing whitespace. *)
Definition stripped (s : string) : Prop := strip s = s.

(** What every [Article] of a batch satisfies. *)
Definition well_formed (a : Article) : Prop :=
  title a <> "" /\ stripped (title a) /\ stripped (kicker a)
  /\ exists now, scrape_date a = Some now.


(** A run of characters that can be a word: not empty, no whitespace. *)
Definition wordlike (w : list ascii) : Prop :=
  w <> [] /\ forallb (fun c => negb (isspace c)) w = true.

Section Vocabulary.
Context {W : Type} `{WebDriver W}.

(** Every strategy of the list, tried in order from the first state,
    yields nothing usable (the element is absent, or its stripped text is
    empty), and trying them all leads to the second state. *)
Inductive passed_over (find : string -> string -> M W WebElement)
  : list selector -> state W -> state W -> Prop :=
| passed_nil : forall s, passed_over find [] s s
| passed_cons : forall sel rest r s s1 s2,
    selector_text find sel s = (inr r, s1) ->
    r = None \/ r = Some "" ->
    passed_over find rest s1 s2 ->
    passed_over find (sel :: rest) s s2.

(** An event that is neither a pipeline entry nor a sleep. *)
Definition quiet_event (ev : event) : bool :=
  negb (is_call ev || is_sleep ev).

(** A computation that only appends quiet events to the trace. *)
Definition quiet {A} (m : M W A) : Prop :=
  forall s, exists evs,
    trace (snd (m s)) = (trace s ++ evs)%list /\ forallb quiet_event evs = true.

(** A computation that ignores the state: it gives the same outcome and
    appends the same events wherever it is run. *)
Definition stateless {A} (m : M W A) : Prop :=
  exists r evs, forall s, m s = (r, add_events s evs).

(** The fixed nested lookup of the title link (line 167). *)
Definition title_link_element (container : WebElement) : result WebElement :=
  match find_element container By.CLASS_NAME "titulo" with
  | inl e => inl e
  | inr titulo => find_element titulo By.TAG_NAME "a"
  end.

(** The item has no usable title: the nested lookup raises, or reading the
    text raises, or the stripped text is empty. *)
Definition untitled (container : WebElement) : Prop :=
  match title_link_element container with
  | inl _ => True
  | inr link_element =>
      match text link_element with
      | inl _ => True
      | inr t => strip t = ""
      end
  end.

(** A computation whose first events are [pre], whatever follows. *)
Definition starts_with {A} (pre : list event) (m : M W A) : Prop :=
  forall s, exists evs,
    trace (snd (m s)) = (trace s ++ pre ++ evs)%list.

Definition all_fail (find : string -> string -> M W WebElement)
           (selectors : list selector) (s : state W) : Prop :=
  exists s', passed_over find selectors s s'.

(** Lines 205-222 when nothing fails: the detail page is loaded and its
    content marker is present. *)
Definition open_detail_page (article_info : ArticleInfo) : M W unit :=
  logger INFO ("No kicker found in main page for "
               ++ slice_to 50 (info_title article_info)
               ++ "... Checking article page...") ;;
  driver_get (link_url article_info) ;;
  wait_presence 10 By.CLASS_NAME "contenido_noticia".

(** Processing the draft navigates to its link. *)
Definition recovery_attempted (article_info : ArticleInfo) (s : state W)
  : Prop :=
  In (Nav (link_url article_info))
     (new_events (process_article article_info) s).
(** A handler list whose clauses all end by raising never turns a failure
    into a value. *)
Definition reraising {A} (hs : list (exn_class * (exn -> M W A))) : Prop :=
  Forall (fun ch => forall e s, exists e' s', snd ch e s = (inl e', s')) hs.
(** A computation that keeps a relation between the states before and
    after it. *)
Definition keeps {A} (R : state W -> state W -> Prop) (m : M W A) : Prop :=
  forall s, R s (snd (m s)).
(** What lines 138-143 log for an exception of [driver.get]. *)
Definition listing_get_logs (self : NewsScraperProcessor) (e : exn)
  : list event :=
  if isinstance e TimeoutException
  then [Log ERROR ("Timeout while accessing " ++ base_url self)]
  else if isinstance e WebDriverException
       then [Log ERROR ("WebDriver error while accessing "
                        ++ base_url self ++ ": " ++ exn_str e)]
       else [].

(** What lines 149-151 log for an exception of the readiness wait. *)
Definition listing_wait_logs (e : exn) : list event :=
  if isinstance e TimeoutException
  then [Log ERROR "Timeout waiting for article containers to load"]
  else [].
(** [session_fault self s e]: in the pipeline run started in [s], one of
    the six session-level operations raised [e].  Each operation is
    applied to the browser as the operations of this run before it left
    it, starting from the browser of [s]; [quit] runs in the browser the
    body of the [with] statement left, however that body ended. *)
Inductive session_fault (self : NewsScraperProcessor) (s : state W)
          (e : exn) : Prop :=
| fault_Chrome w' :
    drv_Chrome (world s) = (inl e, w') ->
    session_fault self s e
| fault_set_page_load_timeout u1 w1 w' :
    drv_Chrome (world s) = (inr u1, w1) ->
    drv_set_page_load_timeout 30 w1 = (inl e, w') ->
    session_fault self s e
| fault_get u1 w1 u2 w2 w' :
    drv_Chrome (world s) = (inr u1, w1) ->
    drv_set_page_load_timeout 30 w1 = (inr u2, w2) ->
    drv_get (base_url self) w2 = (inl e, w') ->
    session_fault self s e
| fault_wait u1 w1 u2 w2 u3 w3 w' :
    drv_Chrome (world s) = (inr u1, w1) ->
    drv_set_page_load_timeout 30 w1 = (inr u2, w2) ->
    drv_get (base_url self) w2 = (inr u3, w3) ->
    drv_wait_presence 20 By.CLASS_NAME "contenedor_dato_modulo" w3
    = (inl e, w') ->
    session_fault self s e
| fault_find_elements u1 w1 u2 w2 u3 w3 u4 w4 w' :
    drv_Chrome (world s) = (inr u1, w1) ->
    drv_set_page_load_timeout 30 w1 = (inr u2, w2) ->
    drv_get (base_url self) w2 = (inr u3, w3) ->
    drv_wait_presence 20 By.CLASS_NAME "contenedor_dato_modulo" w3
    = (inr u4, w4) ->
    drv_find_elements By.CLASS_NAME "contenedor_dato_modulo" w4
    = (inl e, w') ->
    session_fault self s e
| fault_quit u1 w1 w' :
    drv_Chrome (world s) = (inr u1, w1) ->
    drv_quit
      (world
         (snd ((on_world (drv_set_page_load_timeout 30) ;; scrape_page self)
                 {| world := w1;
                    trace := trace s ++ [Call "_scrape_with_selenium"] |})))
    = (inl e, w') ->
    session_fault self s e.
(** [attempt_starts self attempts s k s_k]: in the run of the retry loop
    of [scrape_news] over [attempts] from [s], attempt number [k] starts
    in state [s_k].  The first attempt starts in [s]; after an attempt
    that returned no article the next one starts once the warning is
    logged; after an attempt that raised, with attempts left, the next one
    starts once the two logs are written and the sleep is over (lines
    91-94), which needs a length [time.sleep] accepts.  No attempt
    follows one that returned articles. *)
Inductive attempt_starts (self : NewsScraperProcessor)
  : list Z -> state W -> Z -> state W -> Prop :=
| starts_now attempt rest s :
    attempt_starts self (attempt :: rest) s attempt s
| starts_after_empty attempt rest s s1 k s_k :
    _scrape_with_selenium self s = (inr [], s1) ->
    attempt_starts self rest
      (add_events s1 [Log WARNING (msg_no_articles attempt)]) k s_k ->
    attempt_starts self (attempt :: rest) s k s_k
| starts_after_failure attempt rest s e s1 k s_k :
    _scrape_with_selenium self s = (inl e, s1) ->
    (attempt <? max_retries self - 1)%Z = true ->
    valid_sleep (retry_delay self) ->
    attempt_starts self rest (retry_state self attempt e s1) k s_k ->
    attempt_starts self (attempt :: rest) s k s_k.

(** The run of the retry loop over [attempts] from [s] raised [e] and
    ended in [s']: [e] is what the pipeline raised in the last attempt,
    number [max_retries - 1], and [s'] is the state that invocation left,
    after the two error logs of lines 91 and 96. *)
Definition raised_by_last_attempt (self : NewsScraperProcessor)
           (attempts : list Z) (s : state W) (e : exn) (s' : state W)
  : Prop :=
  exists s_last,
    attempt_starts self attempts s (max_retries self - 1) s_last
    /\ fst (_scrape_with_selenium self s_last) = inl e
    /\ s' = add_events (snd (_scrape_with_selenium self s_last))
              [ Log ERROR (msg_failed (max_retries self - 1) e);
                Log ERROR "All retry attempts failed" ].

End Vocabulary.

(** The article comes from this listing item: its title is the stripped
    text of the item's title link and its link is the [href] of that
    element. *)
Definition from_item (container : WebElement) (a : Article) : Prop :=
  exists link_element t,
    title_link_element container = inr link_element
    /\ text link_element = inr t
    /\ title a = strip t
    /\ get_attribute link_element "href" = inr (link a).


(** ** Properties *)

(** The scenario of the specification: two items, the second recovers its
    kicker from its own page; the result keeps the listing order. *)
Example sim_two_items :
  fst (scrape_news init_processor (Sim.start Sim.two_items))
  = inr [ mkArticle "A" "Breaking" (Some "https://x/a") (Some "") (Some "T0");
          mkArticle "B" "Recovered" (Some "https://x/b") (Some "")
                    (Some "T1") ].
Proof. vm_compute. reflexivity. Qed.

Lemma truthy_false_iff (s : string) : truthy s = false <-> s = "".
Proof. destruct s; simpl; split; congruence. Qed.

Lemma truthy_true_iff (s : string) : truthy s = true <-> s <> "".
Proof. destruct s; simpl; split; congruence. Qed.

Section Properties.
Context {W : Type} `{WebDriver W}.
Implicit Types (s : state W) (e : exn).

(** *** [Article] *)

Lemma new_Article_run (t k : string) (l i sd : option string) s :
  new_Article t k l i sd s
  = (inr (mkArticle t k l i (Some (fst (clock_now (world s))))),
     mkState (snd (clock_now (world s))) (trace s)).
Proof.
  unfold new_Article, post_init, datetime_now_isoformat, bind, on_world, ret.
  cbn [title kicker link image].
  destruct (clock_now (world s)) as [now w']. reflexivity.
Qed.

(** C10: constructing an [Article] never fails; its [scrape_date] is the
    clock reading taken at construction and its other four fields are the
    arguments; the [scrape_date] argument has no influence at all: any other
    value passed for it gives the same [Article] and the same state. *)
Theorem new_Article_scrape_date_is_now :
  forall (t k : string) (l i sd : option string) s,
  exists a s',
    new_Article t k l i sd s = (inr a, s')
    /\ scrape_date a = Some (fst (clock_now (world s)))
    /\ (title a, kicker a, link a, image a) = (t, k, l, i)
    /\ forall sd', new_Article t k l i sd' s = (inr a, s').
Proof.
  intros. eexists. eexists. split; [apply new_Article_run |].
  cbn [scrape_date title kicker link image].
  split; [reflexivity |]. split; [reflexivity |].
  intros sd'. apply new_Article_run.
Qed.

(** *** Field extractor *)

Lemma isinstance_Exception e : isinstance e Exception = true.
Proof. reflexivity. Qed.

Lemma safe_find_element_no_raise (container : WebElement)
      (by_ value : string) (default : option string) s :
  exists v s', _safe_find_element container by_ value default s = (inr v, s').
Proof.
  unfold _safe_find_element, try_except.
  match goal with |- context [dispatch ?hs] => set (handlers := hs) end.
  assert (Hcaught : forall e s0, exists v s',
            dispatch handlers e s0 = (inr v, s')).
  { intros e s0. subst handlers. cbn [dispatch].
    destruct (isinstance e NoSuchElementException);
      [| rewrite isinstance_Exception]; eexists; eexists; reflexivity. }
  clearbody handlers.
  match goal with
  | |- context [match ?body s with _ => _ end] =>
      destruct (body s) as [[e | v] s1]; [apply Hcaught | eauto]
  end.
Qed.

(** C5: [_safe_find_element] never raises and leaves the browser alone.
    When the descendant is found it returns its stripped text, or for a
    tag-name lookup its [src] attribute; when the lookup raises (not-found
    or anything else), or reading the element raises, it returns
    [default]. *)
Theorem safe_find_element_total :
  forall (container : WebElement) (by_ value : string)
         (default : option string) s,
  exists v s',
    _safe_find_element container by_ value default s = (inr v, s')
    /\ world s' = world s
    /\ match find_element container by_ value with
       | inl _ => v = default
       | inr element =>
           if by_ =? By.TAG_NAME
           then match get_attribute element "src" with
                | inr a => v = a
                | inl _ => v = default
                end
           else match text element with
                | inr t => v = Some (strip t)
                | inl _ => v = default
                end
       end.
Proof.
  intros. unfold _safe_find_element, try_except.
  match goal with |- context [dispatch ?hs] => set (handlers := hs) end.
  assert (Hdefault : forall e s0, exists s',
    dispatch handlers e s0 = (inr default, s') /\ world s' = world s0).
  { intros e s0. subst handlers. cbn [dispatch].
    destruct (isinstance e NoSuchElementException).
    - exists s0. split; reflexivity.
    - rewrite isinstance_Exception. eexists. split; reflexivity. }
  clearbody handlers. unfold bind, lift, ret.
  destruct (find_element container by_ value) as [e | element].
  - destruct (Hdefault e s) as (s' & Hd & Hw).
    exists default, s'. rewrite Hd. auto.
  - destruct (by_ =? By.TAG_NAME); cbn [negb].
    + destruct (get_attribute element "src") as [e | a].
      * destruct (Hdefault e s) as (s' & Hd & Hw).
        exists default, s'. rewrite Hd. auto.
      * exists a, s. auto.
    + destruct (text element) as [e | t].
      * destruct (Hdefault e s) as (s' & Hd & Hw).
        exists default, s'. rewrite Hd. auto.
      * exists (Some (strip t)), s. auto.
Qed.

(** C9: for a tag-name lookup that finds an element, the value returned
    is the raw [src] attribute: not stripped, and [None] when the element
    has no such attribute, whatever [default] is. *)
Theorem safe_find_element_src_raw :
  forall (container element : WebElement) (value : string)
         (a default : option string) s,
    find_element container By.TAG_NAME value = inr element ->
    get_attribute element "src" = inr a ->
    _safe_find_element container By.TAG_NAME value default s = (inr a, s).
Proof.
  intros * Hfind Hsrc.
  unfold _safe_find_element, try_except, bind, lift, ret.
  rewrite Hfind. simpl. rewrite Hsrc. reflexivity.
Qed.
(** *** The fallback loop *)

Lemma kicker_loop_passed_over :
  forall find sels article_info s s1,
    passed_over find sels s s1 ->
    kicker_loop find sels article_info s = (inr article_info, s1).
Proof.
  intros find sels article_info s s1 Hp.
  induction Hp as [s | sel rest r s s1 s2 Hsel Hr Hp IH].
  - reflexivity.
  - cbn [kicker_loop]. unfold bind at 1. rewrite Hsel.
    destruct Hr as [-> | ->]; cbn [truthy]; exact IH.
Qed.

Lemma kicker_loop_app_passed_over :
  forall find pre rest article_info s s1,
    passed_over find pre s s1 ->
    kicker_loop find (pre ++ rest) article_info s
    = kicker_loop find rest article_info s1.
Proof.
  intros find pre rest article_info s s1 Hp.
  induction Hp as [s | sel pre' r s s1 s2 Hsel Hr Hp IH].
  - reflexivity.
  - cbn [app kicker_loop]. unfold bind at 1. rewrite Hsel.
    destruct Hr as [-> | ->]; cbn [truthy]; exact IH.
Qed.

(** C6: in any selector list, searched with any (stateful) lookup, when
    the strategies before position [i] are all absent or empty and
    strategy [i] yields the non-empty stripped text [k], the loop sets the
    kicker to [k] and stops in the state reached right after strategy
    [i]: whatever follows in the list is never looked up. *)
Theorem kicker_loop_short_circuit :
  forall (find : string -> string -> M W WebElement)
         (pre : list selector) (sel : selector) (post : list selector)
         (article_info : ArticleInfo) (k : string) s s1 s2,
    passed_over find pre s s1 ->
    selector_text find sel s1 = (inr (Some k), s2) ->
    k <> "" ->
    kicker_loop find (pre ++ sel :: post) article_info s
    = (inr (set_kicker article_info k), s2).
Proof.
  intros * Hpre Hsel Hk.
  rewrite (kicker_loop_app_passed_over _ _ Hpre).
  cbn [kicker_loop]. unfold bind. rewrite Hsel.
  apply truthy_true_iff in Hk. rewrite Hk. reflexivity.
Qed.
(** *** The trace only grows, and only the orchestrator sleeps *)

Lemma quiet_ret {A} (a : A) : quiet (ret (W := W) a).
Proof. intros s. exists []. rewrite app_nil_r. auto. Qed.

Lemma quiet_raise {A} e : quiet (raise (W := W) (A := A) e).
Proof. intros s. exists []. rewrite app_nil_r. auto. Qed.

Lemma quiet_lift {A} (r : result A) : quiet (lift (W := W) r).
Proof. intros s. exists []. rewrite app_nil_r. auto. Qed.

Lemma quiet_on_world {A} (op : W -> result A * W) : quiet (on_world op).
Proof.
  intros s. exists []. unfold on_world.
  destruct (op (world s)). rewrite app_nil_r. auto.
Qed.

Lemma quiet_logger lvl msg : quiet (logger (W := W) lvl msg).
Proof. intros s. exists [Log lvl msg]. auto. Qed.

Lemma quiet_bind {A B} (m : M W A) (k : A -> M W B) :
  quiet m -> (forall a, quiet (k a)) -> quiet (bind m k).
Proof.
  intros Hm Hk s. unfold bind.
  destruct (Hm s) as (evs1 & E1 & Q1).
  destruct (m s) as [[e | a] s1]; cbn [snd] in *.
  - exists evs1. auto.
  - destruct (Hk a s1) as (evs2 & E2 & Q2).
    exists (evs1 ++ evs2)%list. rewrite E2, E1, app_assoc, forallb_app, Q1, Q2.
    auto.
Qed.

Lemma quiet_dispatch {A} (hs : list (exn_class * (exn -> M W A))) e :
  Forall (fun ch => forall e', quiet (snd ch e')) hs ->
  quiet (dispatch hs e).
Proof.
  induction 1 as [| [c h] hs Hh _ IH]; cbn [dispatch].
  - apply quiet_raise.
  - destruct (isinstance e c); [apply Hh | exact IH].
Qed.

Lemma quiet_try_except {A} (m : M W A) hs :
  quiet m ->
  Forall (fun ch => forall e, quiet (snd ch e)) hs ->
  quiet (try_except m hs).
Proof.
  intros Hm Hhs s. unfold try_except.
  destruct (Hm s) as (evs1 & E1 & Q1).
  destruct (m s) as [[e | a] s1]; cbn [snd] in *.
  - destruct (quiet_dispatch e Hhs s1) as (evs2 & E2 & Q2).
    exists (evs1 ++ evs2)%list. rewrite E2, E1, app_assoc, forallb_app, Q1, Q2.
    auto.
  - exists evs1. auto.
Qed.

Lemma quiet_try_finally {A} (m : M W A) (f : M W unit) :
  quiet m -> quiet f -> quiet (try_finally m f).
Proof.
  intros Hm Hf s. unfold try_finally.
  destruct (Hm s) as (evs1 & E1 & Q1).
  destruct (m s) as [r s1]; cbn [snd] in *.
  destruct (Hf s1) as (evs2 & E2 & Q2).
  exists (evs1 ++ evs2)%list.
  destruct (f s1) as [[e | u] s2]; cbn [snd] in *;
    rewrite E2, E1, app_assoc, forallb_app, Q1, Q2; auto.
Qed.

Lemma quiet_for_append {A B} (body : A -> M W (option B)) :
  (forall x, quiet (body x)) ->
  forall xs acc, quiet (for_append body xs acc).
Proof.
  intros Hbody xs. induction xs as [| x xs IH]; intros acc; cbn [for_append].
  - apply quiet_ret.
  - apply quiet_bind; [apply Hbody | intros r; apply IH].
Qed.

Ltac quiet_step :=
  match goal with
  | |- @quiet _ _ (bind _ _) => apply quiet_bind; [| intros ?]
  | |- @quiet _ _ (ret _) => apply quiet_ret
  | |- @quiet _ _ (raise _) => apply quiet_raise
  | |- @quiet _ _ (lift _) => apply quiet_lift
  | |- @quiet _ _ (on_world _) => apply quiet_on_world
  | |- @quiet _ _ (logger _ _) => apply quiet_logger
  | |- @quiet _ _ (try_except _ _) => apply quiet_try_except
  | |- @quiet _ _ (try_finally _ _) => apply quiet_try_finally
  | |- @quiet _ _ (for_append _ _ _) => apply quiet_for_append; intros ?
  | |- Forall _ (_ :: _) => constructor; [intros ?; cbn [snd] |]
  | |- Forall _ [] => constructor
  | |- @quiet _ _ (if ?b then _ else _) => destruct b
  | |- @quiet _ _ (match ?x with _ => _ end) => destruct x
  end.

Lemma quiet_selector_text (find : string -> string -> M W WebElement) sel :
  (forall b v, quiet (find b v)) -> quiet (selector_text find sel).
Proof. intros Hf. unfold selector_text. repeat quiet_step. apply Hf. Qed.

Lemma quiet_kicker_loop (find : string -> string -> M W WebElement) :
  (forall b v, quiet (find b v)) ->
  forall sels article_info, quiet (kicker_loop find sels article_info).
Proof.
  intros Hf sels article_info.
  induction sels as [| sel rest IH]; cbn [kicker_loop].
  - apply quiet_ret.
  - apply quiet_bind; [apply quiet_selector_text, Hf |].
    intros [k |]; [destruct (truthy k) |]; auto using quiet_ret.
Qed.

Lemma quiet_driver_get url : quiet (W := W) (driver_get url).
Proof.
  unfold driver_get. apply quiet_bind; [| intros; apply quiet_on_world].
  intros s. exists [Nav url]. auto.
Qed.

Lemma quiet_safe_find_element container by_ value default :
  quiet (W := W) (_safe_find_element container by_ value default).
Proof. unfold _safe_find_element. repeat quiet_step. Qed.

Lemma quiet_extract_item container : quiet (W := W) (extract_item container).
Proof.
  unfold extract_item, title_link. repeat quiet_step.
  - apply quiet_kicker_loop. intros. apply quiet_lift.
  - apply quiet_safe_find_element.
Qed.

Lemma quiet_recover_kicker d : quiet (W := W) (recover_kicker d).
Proof.
  unfold recover_kicker, wait_presence.
  repeat (quiet_step || apply quiet_driver_get).
  apply quiet_kicker_loop. intros. apply quiet_on_world.
Qed.

Lemma quiet_process_article d : quiet (W := W) (process_article d).
Proof.
  unfold process_article, new_Article, post_init, datetime_now_isoformat.
  repeat (quiet_step || apply quiet_recover_kicker).
Qed.

Lemma quiet_scrape_page self : quiet (W := W) (scrape_page self).
Proof.
  unfold scrape_page, wait_presence, driver_find_elements.
  repeat (quiet_step || apply quiet_driver_get || apply quiet_extract_item
          || apply quiet_process_article).
Qed.

Lemma quiet_create_driver {A} (body : M W A) :
  quiet body -> quiet (_create_driver body).
Proof.
  intros Hb s. unfold _create_driver.
  destruct (quiet_on_world drv_Chrome s) as (evs1 & E1 & Q1).
  destruct (on_world drv_Chrome s) as [[e | u] s1]; cbn [snd] in *.
  - exists evs1. auto.
  - assert (Hq : quiet (try_finally
               (on_world (drv_set_page_load_timeout 30) ;; body)
               (on_world drv_quit))) by repeat (quiet_step || apply Hb).
    destruct (Hq s1) as (evs2 & E2 & Q2).
    exists (evs1 ++ evs2)%list. rewrite E2, E1, app_assoc, forallb_app, Q1, Q2.
    auto.
Qed.

(** Each invocation of the pipeline adds its entry and then quiet events
    only. *)
Lemma scrape_with_selenium_trace self s :
  exists evs,
    trace (snd (_scrape_with_selenium self s))
    = (trace s ++ Call "_scrape_with_selenium" :: evs)%list
    /\ forallb quiet_event evs = true.
Proof.
  unfold _scrape_with_selenium, method, bind, emit.
  set (s0 := {| world := world s; trace := _ |}).
  destruct (quiet_create_driver (quiet_scrape_page self) s0)
    as (evs & E & Q).
  exists evs. rewrite E. subst s0. cbn [trace].
  rewrite <- app_assoc. auto.
Qed.
(** *** One attempt of [scrape_news] *)

Lemma attempt_once_returns self attempt s a l s1 :
  _scrape_with_selenium self s = (inr (a :: l), s1) ->
  attempt_once self attempt s = (inr (Some (a :: l)), s1).
Proof.
  intros Hp. unfold attempt_once, try_except, bind at 1.
  rewrite Hp. reflexivity.
Qed.

Lemma attempt_once_soft self attempt s s1 :
  _scrape_with_selenium self s = (inr [], s1) ->
  attempt_once self attempt s
  = (inr None, add_events s1 [Log WARNING (msg_no_articles attempt)]).
Proof.
  intros Hp. unfold attempt_once, try_except, bind at 1.
  rewrite Hp. reflexivity.
Qed.

Lemma valid_sleep_dec (secs : Z) : {valid_sleep secs} + {~ valid_sleep secs}.
Proof.
  unfold valid_sleep.
  destruct (Z_le_dec 0 secs); [| right; lia].
  destruct (Z_le_dec secs max_sleep); [left | right]; lia.
Qed.

Lemma time_sleep_valid (secs : Z) s :
  valid_sleep secs ->
  time_sleep secs s = (inr tt, add_events s [Sleep secs]).
Proof.
  intros [H0 Hmax]. unfold time_sleep.
  replace (secs <? - max_sleep)%Z with false
    by (symmetry; apply Z.ltb_ge; unfold max_sleep in *; lia).
  replace (max_sleep <? secs)%Z with false
    by (symmetry; apply Z.ltb_ge; lia).
  replace (secs <? 0)%Z with false by (symmetry; apply Z.ltb_ge; lia).
  reflexivity.
Qed.

Lemma time_sleep_invalid (secs : Z) s :
  ~ valid_sleep secs ->
  exists e,
    time_sleep secs s = (inl e, s)
    /\ exn_type e = (if (max_sleep <? Z.abs secs)%Z
                     then OverflowError else ValueError).
Proof.
  intros Hbad. unfold time_sleep.
  destruct ((secs <? - max_sleep) || (max_sleep <? secs))%Z eqn:Hover.
  { eexists. split; [reflexivity |]. cbn [exn_type].
    replace (max_sleep <? Z.abs secs)%Z with true; [reflexivity |].
    symmetry. apply Z.ltb_lt. apply orb_true_iff in Hover.
    destruct Hover as [Hlow | Hhigh];
      [apply Z.ltb_lt in Hlow | apply Z.ltb_lt in Hhigh]; lia. }
  apply orb_false_iff in Hover. destruct Hover as [Hlow Hhigh].
  apply Z.ltb_ge in Hlow, Hhigh.
  destruct (secs <? 0)%Z eqn:Hneg.
  { eexists. split; [reflexivity |]. cbn [exn_type].
    replace (max_sleep <? Z.abs secs)%Z with false; [reflexivity |].
    symmetry. apply Z.ltb_ge. apply Z.ltb_lt in Hneg. lia. }
  exfalso. apply Hbad. apply Z.ltb_ge in Hneg. split; assumption.
Qed.

Lemma attempt_once_retry self attempt s e s1 :
  _scrape_with_selenium self s = (inl e, s1) ->
  (attempt <? max_retries self - 1)%Z = true ->
  valid_sleep (retry_delay self) ->
  attempt_once self attempt s = (inr None, retry_state self attempt e s1).
Proof.
  intros Hp Hlt Hd. unfold attempt_once, try_except, bind at 1.
  rewrite Hp. cbn [dispatch]. rewrite isinstance_Exception, Hlt.
  unfold bind at 1. unfold logger at 1, emit at 1.
  unfold bind at 1. unfold logger at 1, emit at 1.
  unfold bind at 1. rewrite (time_sleep_valid _ Hd).
  unfold ret, retry_state, add_events. cbn [world trace].
  rewrite <- !app_assoc. reflexivity.
Qed.

Lemma attempt_once_bad_delay self attempt s e s1 :
  _scrape_with_selenium self s = (inl e, s1) ->
  (attempt <? max_retries self - 1)%Z = true ->
  ~ valid_sleep (retry_delay self) ->
  exists e',
    attempt_once self attempt s
    = (inl e',
       add_events s1 [ Log ERROR (msg_failed attempt e);
                       Log INFO (msg_retrying self) ])
    /\ exn_type e' = (if (max_sleep <? Z.abs (retry_delay self))%Z
                      then OverflowError else ValueError).
Proof.
  intros Hp Hlt Hd. unfold attempt_once, try_except, bind at 1.
  rewrite Hp. cbn [dispatch]. rewrite isinstance_Exception, Hlt.
  unfold bind at 1. unfold logger at 1, emit at 1.
  unfold bind at 1. unfold logger at 1, emit at 1.
  unfold bind at 1.
  match goal with
  | |- context [time_sleep ?d ?st] =>
      destruct (time_sleep_invalid st Hd) as (e' & -> & Hty)
  end.
  exists e'. split; [| exact Hty]. unfold add_events. cbn [world trace].
  rewrite <- !app_assoc. reflexivity.
Qed.

Lemma attempt_once_last self attempt s e s1 :
  _scrape_with_selenium self s = (inl e, s1) ->
  (attempt <? max_retries self - 1)%Z = false ->
  attempt_once self attempt s
  = (inl e,
     add_events s1 [ Log ERROR (msg_failed attempt e);
                     Log ERROR "All retry attempts failed" ]).
Proof.
  intros Hp Hlt. unfold attempt_once, try_except, bind at 1.
  rewrite Hp. cbn [dispatch]. rewrite isinstance_Exception, Hlt.
  unfold bind, logger, emit, raise, add_events. cbn [world trace].
  rewrite <- !app_assoc. reflexivity.
Qed.
(** *** The retry loop *)

Lemma quiet_no_calls (evs : list event) :
  forallb quiet_event evs = true -> filter is_call evs = [].
Proof.
  induction evs as [| ev evs IH]; cbn [forallb filter]; [reflexivity |].
  intros Hq. apply andb_prop in Hq. destruct Hq as [Hev Hq].
  destruct ev; cbn in Hev; try discriminate; cbn [is_call]; auto.
Qed.

Lemma quiet_no_sleeps (evs : list event) :
  forallb quiet_event evs = true -> filter is_sleep evs = [].
Proof.
  induction evs as [| ev evs IH]; cbn [forallb filter]; [reflexivity |].
  intros Hq. apply andb_prop in Hq. destruct Hq as [Hev Hq].
  destruct ev; cbn in Hev; try discriminate; cbn [is_sleep]; auto.
Qed.

Lemma new_events_app {A} (m : M W A) s (evs : list event) :
  trace (snd (m s)) = (trace s ++ evs)%list -> new_events m s = evs.
Proof.
  intros E. unfold new_events. rewrite E, skipn_app, skipn_all.
  rewrite Nat.sub_diag. reflexivity.
Qed.

(** What one attempt adds to the trace: the entry of the pipeline, quiet
    events, then what the orchestrator logs (and maybe one sleep). *)
Lemma attempt_once_trace self attempt s :
  exists evs,
    trace (snd (attempt_once self attempt s)) = (trace s ++ evs)%list
    /\ count_calls evs = 1%nat.
Proof.
  destruct (scrape_with_selenium_trace self s) as (q & E & Q).
  pose proof (quiet_no_calls _ Q) as Hq.
  assert (Hcount : forall tail, filter is_call tail = [] ->
    count_calls (Call "_scrape_with_selenium" :: q ++ tail) = 1%nat).
  { intros tail Ht. unfold count_calls. cbn [filter is_call].
    rewrite filter_app, Hq, Ht. reflexivity. }
  assert (Hshape : forall r tail,
    attempt_once self attempt s
    = (r, add_events (snd (_scrape_with_selenium self s)) tail) ->
    filter is_call tail = [] ->
    exists evs,
      trace (snd (attempt_once self attempt s)) = (trace s ++ evs)%list
      /\ count_calls evs = 1%nat).
  { intros r tail -> Ht.
    exists (Call "_scrape_with_selenium" :: q ++ tail)%list.
    split; [| apply Hcount, Ht].
    cbn [snd add_events trace]. rewrite E, <- app_assoc. reflexivity. }
  destruct (_scrape_with_selenium self s) as [[e | [| a l]] s1] eqn:Hp;
    cbn [snd] in *.
  - destruct (attempt <? max_retries self - 1)%Z eqn:Hlt.
    + destruct (valid_sleep_dec (retry_delay self)) as [Hd | Hd].
      * eapply Hshape;
          [apply attempt_once_retry; eassumption | reflexivity].
      * destruct (@attempt_once_bad_delay self attempt s e s1 Hp Hlt Hd)
          as (e' & He' & _).
        eapply Hshape; [exact He' | reflexivity].
    + eapply Hshape; [apply attempt_once_last; eassumption | reflexivity].
  - eapply Hshape; [apply attempt_once_soft; eassumption | reflexivity].
  - eapply Hshape with (tail := []); [| reflexivity].
    erewrite attempt_once_returns by eassumption. unfold add_events.
    rewrite app_nil_r. destruct s1; reflexivity.
Qed.

Lemma scrape_news_loop_calls self attempts s :
  exists evs,
    trace (snd (scrape_news_loop self attempts s)) = (trace s ++ evs)%list
    /\ (count_calls evs <= List.length attempts)%nat.
Proof.
  revert s. induction attempts as [| attempt rest IH]; intros s.
  - exists []. cbn. rewrite app_nil_r. auto.
  - cbn [scrape_news_loop]. unfold bind.
    destruct (attempt_once_trace self attempt s) as (evs1 & E1 & C1).
    destruct (attempt_once self attempt s) as [[e | [arts |]] s1];
      cbn [snd] in *.
    + exists evs1. split; [exact E1 | cbn [List.length]; lia].
    + exists evs1. split; [exact E1 | cbn [List.length]; lia].
    + destruct (IH s1) as (evs2 & E2 & C2).
      exists (evs1 ++ evs2)%list. rewrite E2, E1, app_assoc.
      split; [reflexivity |].
      unfold count_calls in *. rewrite filter_app, length_app.
      cbn [List.length]. lia.
Qed.

Lemma scrape_news_loop_returns self attempts s arts :
  fst (scrape_news_loop self attempts s) = inr arts ->
  arts <> [] ->
  exists s0,
    _scrape_with_selenium self s0
    = (inr arts, snd (scrape_news_loop self attempts s)).
Proof.
  revert s. induction attempts as [| attempt rest IH]; intros s Hr Hne.
  - cbn in Hr. congruence.
  - cbn [scrape_news_loop] in *. unfold bind in *.
    destruct (_scrape_with_selenium self s) as [[e | [| a l]] s1] eqn:Hp.
    + destruct (attempt <? max_retries self - 1)%Z eqn:Hlt.
      * destruct (valid_sleep_dec (retry_delay self)) as [Hd | Hd].
        -- erewrite attempt_once_retry in Hr |- * by eassumption.
           apply IH; assumption.
        -- destruct (@attempt_once_bad_delay self attempt s e s1 Hp Hlt Hd)
             as (e' & He' & _).
           rewrite He' in Hr. discriminate.
      * erewrite attempt_once_last in Hr by eassumption. discriminate.
    + erewrite attempt_once_soft in Hr |- * by eassumption.
      apply IH; assumption.
    + erewrite attempt_once_returns in Hr |- * by eassumption.
      cbn in Hr. injection Hr as <-. exists s. rewrite Hp. reflexivity.
Qed.

(** C3: a run of [scrape_news] enters the extraction pipeline at most
    [max_retries] times.  Wherever the loop stands, an attempt whose
    pipeline returns a non-empty list makes the loop return that list at
    once, in the very state the pipeline left, whatever attempts remain.
    So a non-empty result of [scrape_news] is the result of its last
    pipeline invocation, and nothing is attempted, logged or slept after
    it. *)
Theorem scrape_news_attempts_bounded :
  forall (self : NewsScraperProcessor) s,
    (count_calls (new_events (scrape_news self) s)
     <= Z.to_nat (max_retries self))%nat
    /\ (forall (attempt : Z) (rest : list Z) s0 arts s1,
          _scrape_with_selenium self s0 = (inr arts, s1) ->
          arts <> [] ->
          scrape_news_loop self (attempt :: rest) s0 = (inr arts, s1))
    /\ (forall arts,
          fst (scrape_news self s) = inr arts ->
          arts <> [] ->
          exists s0,
            _scrape_with_selenium self s0
            = (inr arts, snd (scrape_news self s))).
Proof.
  intros self s. split; [| split].
  - unfold scrape_news.
    destruct (scrape_news_loop_calls self (range (max_retries self)) s)
      as (evs & E & C).
    rewrite (@new_events_app _ (scrape_news_loop self _) s evs E).
    unfold range in C. rewrite length_map, length_seq in C. exact C.
  - intros attempt rest s0 arts s1 Hp Hne.
    destruct arts as [| a l]; [contradiction |].
    cbn [scrape_news_loop]. unfold bind.
    erewrite attempt_once_returns by exact Hp. reflexivity.
  - intros arts. apply scrape_news_loop_returns.
Qed.


(** C2 (amended): an attempt that completes with zero articles is logged
    as a warning and the loop goes on with the remaining attempts from
    that very state: no sleep separates it from the next attempt.  When
    it was the last attempt, [scrape_news] returns the empty list and
    does not raise. *)
Theorem soft_failure_retried_without_delay :
  forall (self : NewsScraperProcessor) (attempt : Z) (rest : list Z) s s1,
    _scrape_with_selenium self s = (inr [], s1) ->
    scrape_news_loop self (attempt :: rest) s
    = scrape_news_loop self rest
        (add_events s1 [Log WARNING (msg_no_articles attempt)])
    /\ scrape_news_loop self [attempt] s
       = (inr [], add_events s1 [Log WARNING (msg_no_articles attempt)]).
Proof.
  intros self attempt rest s s1 Hp.
  assert (Hstep : forall rest',
    scrape_news_loop self (attempt :: rest') s
    = scrape_news_loop self rest'
        (add_events s1 [Log WARNING (msg_no_articles attempt)])).
  { intros rest'. cbn [scrape_news_loop]. unfold bind at 1.
    erewrite attempt_once_soft by exact Hp. reflexivity. }
  split; [apply Hstep | rewrite Hstep; reflexivity].
Qed.
(** *** The listing loop *)

Lemma add_events_nil s : add_events s [] = s.
Proof. destruct s. unfold add_events. cbn. rewrite app_nil_r. reflexivity. Qed.

Lemma add_events_app s (evs1 evs2 : list event) :
  add_events (add_events s evs1) evs2 = add_events s (evs1 ++ evs2)%list.
Proof. unfold add_events. cbn. rewrite app_assoc. reflexivity. Qed.

Lemma stateless_ret {A} (a : A) : stateless (ret (W := W) a).
Proof. exists (inr a), []. intros s. rewrite add_events_nil. reflexivity. Qed.

Lemma stateless_raise {A} e : stateless (raise (W := W) (A := A) e).
Proof. exists (inl e), []. intros s. rewrite add_events_nil. reflexivity. Qed.

Lemma stateless_lift {A} (r : result A) : stateless (lift (W := W) r).
Proof. exists r, []. intros s. rewrite add_events_nil. reflexivity. Qed.

Lemma stateless_logger lvl msg : stateless (logger (W := W) lvl msg).
Proof. exists (inr tt), [Log lvl msg]. reflexivity. Qed.

Lemma stateless_bind {A B} (m : M W A) (k : A -> M W B) :
  stateless m -> (forall a, stateless (k a)) -> stateless (bind m k).
Proof.
  intros (r & evs & Hm) Hk. destruct r as [e | a].
  - exists (inl e), evs. intros s. unfold bind. rewrite Hm. reflexivity.
  - destruct (Hk a) as (r2 & evs2 & Hka).
    exists r2, (evs ++ evs2)%list. intros s. unfold bind.
    rewrite Hm, Hka, add_events_app. reflexivity.
Qed.

Lemma stateless_dispatch {A} (hs : list (exn_class * (exn -> M W A))) e :
  Forall (fun ch => forall e', stateless (snd ch e')) hs ->
  stateless (dispatch hs e).
Proof.
  induction 1 as [| [c h] hs Hh _ IH]; cbn [dispatch].
  - apply stateless_raise.
  - destruct (isinstance e c); [apply Hh | exact IH].
Qed.

Lemma stateless_try_except {A} (m : M W A) hs :
  stateless m ->
  Forall (fun ch => forall e, stateless (snd ch e)) hs ->
  stateless (try_except m hs).
Proof.
  intros (r & evs & Hm) Hhs. destruct r as [e | a].
  - destruct (stateless_dispatch e Hhs) as (r2 & evs2 & Hd).
    exists r2, (evs ++ evs2)%list. intros s. unfold try_except.
    rewrite Hm, Hd, add_events_app. reflexivity.
  - exists (inr a), evs. intros s. unfold try_except. rewrite Hm.
    reflexivity.
Qed.

Ltac stateless_step :=
  match goal with
  | |- @stateless _ _ (bind _ _) => apply stateless_bind; [| intros ?]
  | |- @stateless _ _ (ret _) => apply stateless_ret
  | |- @stateless _ _ (raise _) => apply stateless_raise
  | |- @stateless _ _ (lift _) => apply stateless_lift
  | |- @stateless _ _ (logger _ _) => apply stateless_logger
  | |- @stateless _ _ (try_except _ _) => apply stateless_try_except
  | |- Forall _ (_ :: _) => constructor; [intros ?; cbn [snd] |]
  | |- Forall _ [] => constructor
  | |- @stateless _ _ (if ?b then _ else _) => destruct b
  | |- @stateless _ _ (match ?x with _ => _ end) => destruct x
  end.

Lemma stateless_kicker_loop (find : string -> string -> M W WebElement) :
  (forall b v, stateless (find b v)) ->
  forall sels article_info, stateless (kicker_loop find sels article_info).
Proof.
  intros Hf sels article_info.
  induction sels as [| sel rest IH]; cbn [kicker_loop].
  - apply stateless_ret.
  - apply stateless_bind.
    + unfold selector_text. repeat stateless_step. apply Hf.
    + intros [k |]; [destruct (truthy k) |]; auto using stateless_ret.
Qed.

Lemma stateless_extract_item container :
  stateless (W := W) (extract_item container).
Proof.
  unfold extract_item, title_link, _safe_find_element.
  repeat stateless_step.
  apply stateless_kicker_loop. intros. apply stateless_lift.
Qed.

Lemma stateless_for_append {A B} (body : A -> M W (option B)) :
  (forall x, stateless (body x)) ->
  forall xs acc, stateless (for_append body xs acc).
Proof.
  intros Hbody xs. induction xs as [| x xs IH]; intros acc; cbn [for_append].
  - apply stateless_ret.
  - apply stateless_bind; [apply Hbody | intros r; apply IH].
Qed.

Lemma stateless_fst {A} (m : M W A) s s' :
  stateless m -> fst (m s) = fst (m s').
Proof. intros (r & evs & Hm). rewrite !Hm. reflexivity. Qed.

Lemma for_append_app {A B} (body : A -> M W (option B)) xs ys acc s :
  for_append body (xs ++ ys) acc s
  = (l <- for_append body xs acc ;; for_append body ys l) s.
Proof.
  revert acc s. induction xs as [| x xs IH]; intros acc s.
  - reflexivity.
  - cbn [app for_append]. unfold bind.
    destruct (body x s) as [[e | r] s1]; [reflexivity |].
    rewrite IH. reflexivity.
Qed.

Lemma extract_item_untitled container s :
  untitled container ->
  exists evs, extract_item container s = (inr None, add_events s evs).
Proof.
  unfold untitled, title_link_element, extract_item, title_link.
  unfold try_except, bind, lift, ret.
  destruct (find_element container By.CLASS_NAME "titulo") as [e | titulo].
  - intros _. cbn [dispatch]. destruct (isinstance e NoSuchElementException).
    + exists []. rewrite add_events_nil. reflexivity.
    + cbn [dispatch raise]. rewrite isinstance_Exception.
      eexists [_]. reflexivity.
  - destruct (find_element titulo By.TAG_NAME "a") as [e | link_element].
    + intros _. cbn [dispatch].
      destruct (isinstance e NoSuchElementException).
      * exists []. rewrite add_events_nil. reflexivity.
      * cbn [dispatch raise]. rewrite isinstance_Exception.
        eexists [_]. reflexivity.
    + destruct (text link_element) as [e | t].
      * intros _. cbn [dispatch].
        destruct (isinstance e NoSuchElementException).
        -- exists []. rewrite add_events_nil. reflexivity.
        -- cbn [dispatch raise]. rewrite isinstance_Exception.
           eexists [_]. reflexivity.
      * intros Hempty.
        destruct (get_attribute link_element "href") as [e | href].
        -- cbn [dispatch]. destruct (isinstance e NoSuchElementException).
           ++ exists []. rewrite add_events_nil. reflexivity.
           ++ cbn [dispatch raise]. rewrite isinstance_Exception.
              eexists [_]. reflexivity.
        -- cbn [set_title set_link info_title]. rewrite Hempty.
           exists []. rewrite add_events_nil. reflexivity.
Qed.

(** C7: an item whose fixed title-link lookup raises, or whose title is
    empty once stripped (whatever its [href]), appends nothing to
    [article_data]: the body of the loop ends without raising, leaves the
    browser alone, and the items collected from a listing that contains it
    are those of the listing without it.  Nothing else in the container is
    consulted for a title or a link. *)
Theorem untitled_item_excluded :
  forall (container : WebElement),
    untitled container ->
    forall (pre post : list WebElement) (acc : list ArticleInfo) s,
      (exists evs, extract_item container s = (inr None, add_events s evs))
      /\ fst (for_append extract_item (pre ++ container :: post) acc s)
         = fst (for_append extract_item (pre ++ post) acc s).
Proof.
  intros container Hun pre post acc s.
  split; [apply extract_item_untitled, Hun |].
  rewrite !for_append_app. unfold bind at 1 2.
  destruct (stateless_for_append extract_item stateless_extract_item pre acc)
    as (r & evs & Hpre).
  rewrite Hpre. destruct r as [e | l]; [reflexivity |].
  cbn [for_append]. unfold bind.
  destruct (@extract_item_untitled container (add_events s evs) Hun)
    as (evs' & ->).
  apply stateless_fst, stateless_for_append, stateless_extract_item.
Qed.
(** *** Which strategies decide the kicker *)

Lemma kicker_loop_inv (find : string -> string -> M W WebElement) :
  forall sels article_info article_info' s s',
    kicker_loop find sels article_info s = (inr article_info', s') ->
    (passed_over find sels s s' /\ article_info' = article_info)
    \/ (exists k, truthy k = true
                  /\ article_info' = set_kicker article_info k).
Proof.
  induction sels as [| sel rest IH]; intros d d' s s' Hloop.
  - cbn in Hloop. injection Hloop as <- <-. left. split; [constructor | auto].
  - cbn [kicker_loop] in Hloop. unfold bind at 1 in Hloop.
    destruct (selector_text find sel s) as [[e | r] s1] eqn:Hsel;
      [discriminate |].
    destruct r as [k |].
    + destruct (truthy k) eqn:Hk.
      * injection Hloop as <- <-. right. exists k. auto.
      * destruct (IH _ _ _ _ Hloop) as [[Hp ->] | Hfound]; [left | auto].
        split; [| reflexivity].
        apply truthy_false_iff in Hk. subst k.
        eapply passed_cons; eauto.
    + destruct (IH _ _ _ _ Hloop) as [[Hp ->] | Hfound]; [left | auto].
      split; [| reflexivity]. eapply passed_cons; eauto.
Qed.

(** After the loop ran from an empty kicker, the kicker is still empty
    exactly when every strategy was passed over. *)
Lemma kicker_loop_empty_iff (find : string -> string -> M W WebElement) :
  forall sels article_info article_info' s s',
    info_kicker article_info = "" ->
    kicker_loop find sels article_info s = (inr article_info', s') ->
    (info_kicker article_info' = "" <-> all_fail find sels s).
Proof.
  intros sels d d' s s' Hempty Hloop.
  destruct (kicker_loop_inv _ _ _ _ Hloop) as [[Hp ->] | (k & Hk & ->)].
  - split; [intros _; exists s'; exact Hp | auto].
  - cbn [set_kicker info_kicker]. apply truthy_true_iff in Hk.
    split; [contradiction |]. intros (s'' & Hp).
    rewrite (kicker_loop_passed_over d Hp) in Hloop.
    injection Hloop as Hd _. rewrite Hd in Hempty. cbn in Hempty.
    contradiction.
Qed.

Lemma title_link_run container article_info s :
  exists r,
    title_link container article_info s = (r, s)
    /\ forall d, r = inr (Some d) -> info_kicker d = info_kicker article_info.
Proof.
  unfold title_link, try_except, bind, lift, ret.
  destruct (find_element container By.CLASS_NAME "titulo") as [e | titulo].
  { cbn [dispatch]. destruct (isinstance e NoSuchElementException);
      eexists; (split; [reflexivity | discriminate]). }
  destruct (find_element titulo By.TAG_NAME "a") as [e | link_element].
  { cbn [dispatch]. destruct (isinstance e NoSuchElementException);
      eexists; (split; [reflexivity | discriminate]). }
  destruct (text link_element) as [e | t].
  { cbn [dispatch]. destruct (isinstance e NoSuchElementException);
      eexists; (split; [reflexivity | discriminate]). }
  destruct (get_attribute link_element "href") as [e | href].
  { cbn [dispatch]. destruct (isinstance e NoSuchElementException);
      eexists; (split; [reflexivity | discriminate]). }
  eexists. split; [reflexivity |].
  intros d Hd. injection Hd as <-. reflexivity.
Qed.

Lemma extract_item_some container d s s1 :
  extract_item container s = (inr (Some d), s1) ->
  exists d1 d2 s2 img,
    info_kicker d1 = ""
    /\ kicker_loop (container_find container) kicker_selectors d1 s
       = (inr d2, s2)
    /\ d = set_image d2 img.
Proof.
  intros Hex. unfold extract_item in Hex.
  unfold try_except at 1 in Hex. unfold bind at 1 in Hex.
  destruct (title_link_run container (mkInfo "" (Some "") "" (Some "")) s)
    as (r & Hr & Hkick).
  rewrite Hr in Hex. destruct r as [e | [d1 |]].
  - cbn [dispatch] in Hex. rewrite isinstance_Exception in Hex.
    discriminate.
  - destruct (truthy (info_title d1)); [| discriminate]. cbn [negb] in Hex.
    unfold bind at 1 in Hex.
    destruct (kicker_loop (container_find container) kicker_selectors d1 s)
      as [[e | d2] s2] eqn:Hloop.
    + cbn [dispatch] in Hex. rewrite isinstance_Exception in Hex.
      discriminate.
    + unfold bind at 1 in Hex.
      destruct (safe_find_element_no_raise container By.TAG_NAME "img"
                  (Some "") s2) as (img & s3 & Himg).
      rewrite Himg in Hex. injection Hex as <- _.
      exists d1, d2, s2, img. split; [apply (Hkick d1 eq_refl) | auto].
  - discriminate.
Qed.

Lemma recover_kicker_some d d' s s' :
  recover_kicker d s = (inr (Some d'), s') ->
  kicker_loop driver_find_element article_kicker_selectors d
              (snd (open_detail_page d s))
  = (inr d', s').
Proof.
  unfold recover_kicker, open_detail_page, driver_get, wait_presence.
  unfold try_except, bind, logger, emit, on_world, ret. cbn [world trace].
  destruct (drv_get (link_url d) (world s)) as [[e | u] w1].
  { cbn [dispatch]. destruct (isinstance e TimeoutException);
      [discriminate |].
    destruct (isinstance e WebDriverException); discriminate. }
  cbn [negb world trace].
  destruct (drv_wait_presence 10 By.CLASS_NAME "contenido_noticia" w1)
    as [[e | u'] w2].
  { cbn [dispatch]. destruct (isinstance e TimeoutException); discriminate. }
  cbn [negb snd].
  match goal with
  | |- context [kicker_loop ?f ?l ?i ?st] =>
      destruct (kicker_loop f l i st) as [[e | d''] s''] eqn:Hloop
  end; [discriminate |].
  intros Heq. injection Heq as <- <-. reflexivity.
Qed.

Lemma process_article_some d a s s' :
  process_article d s = (inr (Some a), s') ->
  if needs_recovery d
  then exists d' s1,
         recover_kicker d s = (inr (Some d'), s1)
         /\ kicker a = info_kicker d'
  else kicker a = info_kicker d.
Proof.
  unfold process_article. unfold try_except at 1. unfold bind at 1.
  destruct (needs_recovery d).
  - destruct (recover_kicker d s) as [[e | [d' |]] s1].
    + cbn [dispatch]. rewrite isinstance_Exception. discriminate.
    + unfold bind at 1. rewrite new_Article_run.
      unfold bind, logger, emit, ret. intros Heq. injection Heq as <- _.
      exists d', s1. auto.
    + discriminate.
  - unfold ret at 1. unfold bind at 1. rewrite new_Article_run.
    unfold bind, logger, emit, ret. intros Heq. injection Heq as <- _.
    reflexivity.
Qed.
Lemma starts_bind {A B} pre (m : M W A) (k : A -> M W B) :
  starts_with pre m -> (forall a, quiet (k a)) -> starts_with pre (bind m k).
Proof.
  intros Hm Hk s. unfold bind. destruct (Hm s) as (evs1 & E1).
  destruct (m s) as [[e | a] s1]; cbn [snd] in *.
  - exists evs1. exact E1.
  - destruct (Hk a s1) as (evs2 & E2 & _).
    exists (evs1 ++ evs2)%list. rewrite E2, E1, <- !app_assoc. reflexivity.
Qed.

Lemma starts_try_except {A} pre (m : M W A) hs :
  starts_with pre m ->
  Forall (fun ch => forall e, quiet (snd ch e)) hs ->
  starts_with pre (try_except m hs).
Proof.
  intros Hm Hhs s. unfold try_except. destruct (Hm s) as (evs1 & E1).
  destruct (m s) as [[e | a] s1]; cbn [snd] in *.
  - destruct (quiet_dispatch e Hhs s1) as (evs2 & E2 & _).
    exists (evs1 ++ evs2)%list. rewrite E2, E1, <- !app_assoc. reflexivity.
  - exists evs1. exact E1.
Qed.

Lemma starts_emit {A} ev (m : M W A) :
  quiet m -> starts_with [ev] (emit ev ;; m).
Proof.
  intros Hm s. unfold bind, emit.
  match goal with |- context [m ?st] => destruct (Hm st) as (evs & E & _) end.
  exists evs. rewrite E. cbn [trace]. rewrite <- app_assoc. reflexivity.
Qed.

Lemma starts_cons {A} ev pre (m : M W A) :
  starts_with pre m -> starts_with (ev :: pre) (emit ev ;; m).
Proof.
  intros Hm s. unfold bind, emit.
  match goal with |- context [m ?st] => destruct (Hm st) as (evs & E) end.
  exists evs. rewrite E. cbn [trace]. rewrite <- app_assoc. reflexivity.
Qed.

Lemma recover_kicker_starts d :
  exists msg,
    starts_with (W := W) [Log INFO msg; Nav (link_url d)] (recover_kicker d).
Proof.
  eexists. unfold recover_kicker. unfold logger at 1. apply starts_cons.
  apply starts_bind.
  - apply starts_try_except; [| repeat quiet_step].
    apply starts_bind; [| intros; apply quiet_ret].
    unfold driver_get. apply starts_emit, quiet_on_world.
  - intros loaded. unfold wait_presence. repeat quiet_step.
    apply quiet_kicker_loop. intros. apply quiet_on_world.
Qed.

Lemma needs_recovery_iff d :
  needs_recovery d = true
  <-> info_kicker d = ""
      /\ exists url, info_link d = Some url /\ url <> "".
Proof.
  unfold needs_recovery, truthy_opt. rewrite andb_true_iff, negb_true_iff.
  rewrite truthy_false_iff. split.
  - intros [Hk Hl]. split; [exact Hk |].
    destruct (info_link d) as [url |]; [| discriminate].
    exists url. split; [reflexivity | apply truthy_true_iff, Hl].
  - intros [Hk (url & -> & Hurl)]. split; [exact Hk |].
    apply truthy_true_iff, Hurl.
Qed.

Lemma recovery_attempted_iff d s :
  recovery_attempted d s <-> needs_recovery d = true.
Proof.
  unfold recovery_attempted. split.
  - destruct (needs_recovery d) eqn:Hn; [reflexivity |]. intros Hin.
    assert (E : exists msg,
      trace (snd (process_article d s)) = (trace s ++ [Log INFO msg])%list).
    { eexists. unfold process_article, try_except. rewrite Hn.
      unfold bind at 1. unfold ret at 1. unfold bind at 1.
      rewrite new_Article_run. unfold bind, logger, emit, ret.
      reflexivity. }
    destruct E as (msg & E). apply new_events_app in E.
    rewrite E in Hin. destruct Hin as [Hin | []]. discriminate.
  - intros Hn.
    assert (Hs : exists msg,
      starts_with [Log INFO msg; Nav (link_url d)] (process_article d)).
    { destruct (recover_kicker_starts d) as (msg & Hs). exists msg.
      unfold process_article. rewrite Hn.
      apply starts_try_except; [| repeat quiet_step].
      apply starts_bind; [exact Hs |].
      intros r. unfold new_Article, post_init, datetime_now_isoformat.
      repeat quiet_step. }
    destruct Hs as (msg & Hs). destruct (Hs s) as (evs & E).
    apply new_events_app in E. rewrite E. cbn. auto.
Qed.

(** C8: processing a draft navigates to its page exactly when its listing
    kicker is empty and its link is a non-empty string.  And for an item
    that yields a draft and an [Article], the article's kicker is empty
    exactly when every container-scoped strategy was passed over on the
    container and, if the page was visited, every page-scoped strategy was
    passed over on the page once loaded and ready. *)
Theorem kicker_empty_iff_all_strategies_fail :
  forall (d : ArticleInfo) s2,
    (recovery_attempted d s2
     <-> info_kicker d = ""
         /\ exists url, info_link d = Some url /\ url <> "")
    /\ forall (container : WebElement) (a : Article) s s1 s3,
         extract_item container s = (inr (Some d), s1) ->
         process_article d s2 = (inr (Some a), s3) ->
         (kicker a = ""
          <-> all_fail (container_find container) kicker_selectors s
              /\ (recovery_attempted d s2 ->
                  all_fail driver_find_element article_kicker_selectors
                           (snd (open_detail_page d s2)))).
Proof.
  intros d s2. split.
  { rewrite recovery_attempted_iff. apply needs_recovery_iff. }
  intros container a s s1 s3 Hex Hproc.
  rewrite recovery_attempted_iff.
  destruct (@extract_item_some _ _ _ _ Hex)
    as (d1 & d2 & sk & img & Hd1 & Hloop & ->).
  pose proof (@kicker_loop_empty_iff _ _ _ _ _ _ Hd1 Hloop) as Hcont.
  cbn [set_image info_kicker] in *.
  pose proof (@process_article_some _ _ _ _ Hproc) as Hcase.
  destruct (needs_recovery (set_image d2 img)) eqn:Hn.
  - destruct Hcase as (d' & s' & Hrec & ->).
    apply recover_kicker_some in Hrec.
    assert (Hempty : info_kicker d2 = "").
    { apply needs_recovery_iff in Hn. apply Hn. }
    pose proof (@kicker_loop_empty_iff _ _ (set_image d2 img) _ _ _
                  Hempty Hrec) as Hpage.
    rewrite Hpage. split.
    + intros Hp. split; [apply Hcont, Hempty | auto].
    + intros [_ Hp]. apply Hp. reflexivity.
  - rewrite Hcase. cbn [set_image info_kicker]. rewrite Hcont.
    split; [intros Hc; split; [exact Hc | discriminate] | intros [Hc _]; exact Hc].
Qed.
(** *** A failed recovery *)

(** When the navigation to the article page raises a Selenium exception,
    the [continue] of lines 211 and 214 ends the iteration: no [Article]
    is built for the draft. *)
Lemma failed_navigation_skips_article d s e w1 :
  needs_recovery d = true ->
  drv_get (link_url d) (world s) = (inl e, w1) ->
  isinstance e WebDriverException = true ->
  exists msg1 msg2,
    process_article d s
    = (inr None,
       mkState w1 (trace s ++ [ Log INFO msg1; Nav (link_url d);
                                Log ERROR msg2 ])%list).
Proof.
  intros Hn Hget Hwd. unfold process_article. rewrite Hn.
  unfold recover_kicker, driver_get.
  unfold try_except, bind, logger, emit, on_world, ret. cbn [world trace].
  rewrite Hget. cbn [dispatch].
  destruct (isinstance e TimeoutException); [| rewrite Hwd];
    eexists; eexists; cbn [negb world trace]; rewrite <- !app_assoc;
    reflexivity.
Qed.

(** Likewise when the wait for the content marker times out (line 222). *)
Lemma failed_wait_skips_article d s u e w1 w2 :
  needs_recovery d = true ->
  drv_get (link_url d) (world s) = (inr u, w1) ->
  drv_wait_presence 10 By.CLASS_NAME "contenido_noticia" w1 = (inl e, w2) ->
  isinstance e TimeoutException = true ->
  exists msg1 msg2,
    process_article d s
    = (inr None,
       mkState w2 (trace s ++ [ Log INFO msg1; Nav (link_url d);
                                Log ERROR msg2 ])%list).
Proof.
  intros Hn Hget Hwait Ht. unfold process_article. rewrite Hn.
  unfold recover_kicker, driver_get, wait_presence.
  unfold try_except, bind, logger, emit, on_world, ret. cbn [world trace].
  rewrite Hget. cbn [negb world trace]. rewrite Hwait. cbn [dispatch].
  rewrite Ht. eexists; eexists; cbn [negb world trace].
  rewrite <- !app_assoc. reflexivity.
Qed.
End Properties.

Lemma safe_find_element_src_raw_witness :
  let container :=
    Sim.item "A" "https://x/a" None (Some Sim.img_without_src) in
  let s := Sim.start Sim.two_items in
  _safe_find_element container By.TAG_NAME "img" (Some "") s = (inr None, s).
Proof.
  intros container s.
  apply (safe_find_element_src_raw container "img" (Some "") s
           (element := Sim.img_without_src)); reflexivity.
Defined.

Lemma kicker_loop_short_circuit_witness :
  let s := snd (driver_get "https://x/b" (Sim.start Sim.two_items)) in
  let article_info := mkInfo "B" (Some "https://x/b") "" (Some "") in
  kicker_loop driver_find_element article_kicker_selectors article_info s
  = (inr (mkInfo "B" (Some "https://x/b") "Recovered" (Some "")), s).
Proof.
  intros s article_info.
  apply (@kicker_loop_short_circuit _ driver_find_element
           [ (By.CLASS_NAME, "volanta_noticia");
             (By.CLASS_NAME, "volanta_noticia fuente_roboto_slab") ]
           (By.CSS_SELECTOR,
            ".slot.contenido_fijo.titulo_de_noticia .volanta_noticia")
           [ (By.CSS_SELECTOR, ".titulo_de_noticia .volanta_noticia") ]
           article_info "Recovered" s s s).
  - apply passed_cons with (r := None) (s1 := s);
      [reflexivity | left; reflexivity | ].
    apply passed_cons with (r := None) (s1 := s);
      [reflexivity | left; reflexivity | ].
    apply passed_nil.
  - reflexivity.
  - discriminate.
Defined.

Lemma scrape_news_attempts_bounded_witness :
  let run := scrape_news init_processor in
  let s := Sim.start Sim.two_items in
  let arts :=
    [ mkArticle "A" "Breaking" (Some "https://x/a") (Some "") (Some "T0");
      mkArticle "B" "Recovered" (Some "https://x/b") (Some "") (Some "T1") ]
  in
  (count_calls (new_events run s) <= 3)%nat
  /\ scrape_news_loop init_processor [0; 1; 2]%Z s
     = (inr arts, snd (_scrape_with_selenium init_processor s))
  /\ exists s0,
       _scrape_with_selenium init_processor s0 = (inr arts, snd (run s)).
Proof.
  intros run s arts.
  destruct (scrape_news_attempts_bounded init_processor s)
    as (Hcalls & Hstep & Hret).
  split; [exact Hcalls |]. split.
  - apply Hstep; [vm_compute; reflexivity | discriminate].
  - apply Hret; [vm_compute; reflexivity | discriminate].
Defined.


Lemma soft_failure_retried_without_delay_witness :
  let s := Sim.start Sim.empty_listing in
  let s1 := snd (_scrape_with_selenium init_processor s) in
  scrape_news_loop init_processor [0; 1; 2]%Z s
  = scrape_news_loop init_processor [1; 2]%Z
      (add_events s1 [Log WARNING "Attempt 1 yielded no articles"])
  /\ scrape_news_loop init_processor [0]%Z s
     = (inr [], add_events s1 [Log WARNING "Attempt 1 yielded no articles"]).
Proof.
  intros s s1.
  apply (@soft_failure_retried_without_delay _ _ init_processor 0
           [1; 2]%Z s s1).
  reflexivity.
Defined.

(** C2, as stated, fails: on a listing that is ready but empty, every
    attempt is a soft failure; the run makes all three attempts, returns
    the empty list, and never sleeps between them. *)
Lemma soft_failure_has_no_delay :
  let run := scrape_news init_processor in
  let s := Sim.start Sim.empty_listing in
  fst (run s) = inr []
  /\ count_calls (new_events run s) = 3%nat
  /\ sleeps (new_events run s) = [].
Proof. vm_compute. repeat split. Qed.

Lemma untitled_item_excluded_witness :
  let a := Sim.item "A" "https://x/a" (Some "Breaking") None in
  let b := Sim.item "B" "https://x/b" None None in
  let s := Sim.start Sim.two_items in
  (exists evs,
     extract_item Sim.blank_title_item s = (inr None, add_events s evs))
  /\ fst (for_append extract_item [a; Sim.blank_title_item; b] [] s)
     = fst (for_append extract_item [a; b] [] s).
Proof.
  intros a b s.
  apply (@untitled_item_excluded Sim.Browser Sim.blank_title_item
           eq_refl [a] [b] [] s).
Defined.

Lemma kicker_empty_iff_all_strategies_fail_witness :
  let container := Sim.item "B" "https://x/b" None None in
  let d := mkInfo "B" (Some "https://x/b") "" (Some "") in
  let a := mkArticle "B" "Recovered" (Some "https://x/b") (Some "")
                     (Some "T0") in
  let s := Sim.start Sim.two_items in
  (recovery_attempted d s
   <-> info_kicker d = "" /\ exists url, info_link d = Some url /\ url <> "")
  /\ (kicker a = ""
      <-> all_fail (container_find container) kicker_selectors s
          /\ (recovery_attempted d s ->
              all_fail driver_find_element article_kicker_selectors
                       (snd (open_detail_page d s)))).
Proof.
  intros container d a s.
  destruct (kicker_empty_iff_all_strategies_fail d s) as [Hwhen Hiff].
  split; [exact Hwhen |].
  apply (Hiff container a s (snd (extract_item container s))
              (snd (process_article d s))); reflexivity.
Defined.

(** C1, on the code: a listing with one titled item without a kicker, whose
    own page cannot be opened (navigation times out) or never shows its
    content marker.  The listing phase produces the draft; the failure is
    logged and nothing is raised; but the batch returned is empty: the
    draft yields no [Article]. *)
Theorem failed_recovery_drops_article :
  let item := Sim.item "A" "https://x/a" None None in
  let run := _scrape_with_selenium init_processor in
  let r1 := run (Sim.start Sim.detail_times_out) in
  let r2 := run (Sim.start Sim.detail_never_ready) in
  fst (extract_item item (Sim.start Sim.detail_times_out))
  = inr (Some (mkInfo "A" (Some "https://x/a") "" (Some "")))
  /\ fst r1 = inr []
  /\ In (Log ERROR "Timeout while accessing article page: https://x/a")
        (trace (snd r1))
  /\ fst r2 = inr []
  /\ In (Log ERROR
           "Timeout waiting for article content to load: https://x/a")
        (trace (snd r2)).
Proof.
  cbv zeta. repeat split; try (vm_compute; reflexivity);
    vm_compute; intuition.
Qed.

(** ** Further properties of the module *)

(** *** [str.strip] *)

Lemma lstrip_chars_fixed (l : list ascii) : lstrip_fixed (lstrip_chars l).
Proof.
  induction l as [| c l IH]; cbn; [exact I |].
  destruct (isspace c) eqn:Hc; [exact IH | exact Hc].
Qed.

Lemma lstrip_chars_id (l : list ascii) :
  lstrip_fixed l -> lstrip_chars l = l.
Proof. destruct l as [| c l]; cbn; [reflexivity | intros ->; reflexivity]. Qed.

Lemma lstrip_chars_snoc (l : list ascii) (c : ascii) :
  isspace c = false -> exists l', lstrip_chars (l ++ [c]) = (l' ++ [c])%list.
Proof.
  intros Hc. induction l as [| x l IH]; cbn.
  - rewrite Hc. exists []. reflexivity.
  - destruct (isspace x); [exact IH | exists (x :: l); reflexivity].
Qed.

(** Stripping the right end of a list that starts with a non-blank keeps
    that start. *)
Lemma rstrip_keeps_head (l : list ascii) :
  lstrip_fixed l -> lstrip_fixed (rev (lstrip_chars (rev l))).
Proof.
  destruct l as [| c l]; cbn [lstrip_fixed]; [intros _; exact I |].
  intros Hc. cbn [rev].
  destruct (@lstrip_chars_snoc (rev l) c Hc) as (l' & ->).
  rewrite rev_app_distr. cbn. exact Hc.
Qed.

Lemma strip_idempotent (s : string) : strip (strip s) = strip s.
Proof.
  unfold strip. rewrite list_ascii_of_string_of_list_ascii.
  set (l1 := lstrip_chars (list_ascii_of_string s)).
  set (l2 := rev (lstrip_chars (rev l1))).
  assert (H1 : lstrip_chars l2 = l2).
  { apply lstrip_chars_id. subst l2. apply rstrip_keeps_head.
    subst l1. apply lstrip_chars_fixed. }
  rewrite H1. subst l2. rewrite rev_involutive.
  rewrite (@lstrip_chars_id _ (lstrip_chars_fixed (rev l1))). reflexivity.
Qed.

Lemma stripped_strip (s : string) : stripped (strip s).
Proof. apply strip_idempotent. Qed.

Lemma stripped_empty : stripped "".
Proof. reflexivity. Qed.

(** *** [str.split] *)

Example split_example :
  split "  Casino  operator Acquires  rival " =
  ["Casino"; "operator"; "Acquires"; "rival"].
Proof. reflexivity. Qed.


Lemma split_chars_wordlike (l word : list ascii) :
  forallb (fun c => negb (isspace c)) word = true ->
  Forall wordlike (split_chars l word).
Proof.
  revert word. induction l as [| c l IH]; intros word Hword;
    cbn [split_chars].
  - destruct word; constructor; [| constructor].
    split; [discriminate | exact Hword].
  - destruct (isspace c) eqn:Hc.
    + apply Forall_app. split; [| apply IH; reflexivity].
      destruct word; constructor; [| constructor].
      split; [discriminate | exact Hword].
    + apply IH. rewrite forallb_app, Hword. cbn. rewrite Hc. reflexivity.
Qed.

Lemma split_chars_word_pending (l word : list ascii) :
  word <> [] -> split_chars l word <> [].
Proof.
  revert word. induction l as [| c l IH]; intros word Hword;
    cbn [split_chars].
  - destruct word; [contradiction | discriminate].
  - destruct (isspace c).
    + destruct word; [contradiction | discriminate].
    + apply IH. destruct word; discriminate.
Qed.



Lemma stripped_starts_with_text (s : string) :
  stripped s -> lstrip_fixed (list_ascii_of_string s).
Proof.
  intros Hs. unfold stripped, strip in Hs.
  apply (f_equal list_ascii_of_string) in Hs.
  rewrite list_ascii_of_string_of_list_ascii in Hs. rewrite <- Hs.
  apply rstrip_keeps_head, lstrip_chars_fixed.
Qed.

Lemma stripped_title_has_a_word (s : string) :
  stripped s -> s <> "" -> 1 <= List.length (split s).
Proof.
  intros Hs Hne. apply stripped_starts_with_text in Hs.
  unfold split. rewrite length_map.
  destruct s as [| c s]; [contradiction |].
  cbn [list_ascii_of_string lstrip_fixed] in *. cbn [split_chars].
  rewrite Hs. cbn [app].
  pose proof (@split_chars_word_pending (list_ascii_of_string s) [c]) as Hw.
  destruct (split_chars (list_ascii_of_string s) [c]);
    [exfalso; apply Hw; [discriminate | reflexivity] | cbn; lia].
Qed.


Section Further.
Context {W : Type} `{WebDriver W}.
Implicit Types (s : state W) (e : exn).

(** *** Reading a successful run backwards *)

Lemma bind_inr_inv {A B} (m : M W A) (k : A -> M W B) s b s' :
  bind m k s = (inr b, s') ->
  exists a s1, m s = (inr a, s1) /\ k a s1 = (inr b, s').
Proof.
  unfold bind. destruct (m s) as [[e | a] s1]; [discriminate |].
  intros Hk. exists a, s1. auto.
Qed.

Lemma dispatch_reraising {A} (hs : list (exn_class * (exn -> M W A))) e s :
  reraising hs -> exists e' s', dispatch hs e s = (inl e', s').
Proof.
  induction 1 as [| [c h] hs Hh _ IH]; cbn [dispatch].
  - exists e, s. reflexivity.
  - destruct (isinstance e c); [apply Hh | exact IH].
Qed.

Lemma try_except_reraising_inv {A} (m : M W A) hs s a s' :
  reraising hs -> try_except m hs s = (inr a, s') -> m s = (inr a, s').
Proof.
  intros Hhs. unfold try_except.
  destruct (m s) as [[e | a0] s1]; [| auto].
  destruct (dispatch_reraising e s1 Hhs) as (e' & s2 & ->). discriminate.
Qed.

Lemma log_then_raise_reraising {A} lvl (msg : exn -> string) c :
  reraising (W := W) (A := A)
    [ (c, fun e => logger lvl (msg e) ;; raise e) ].
Proof.
  constructor; [| constructor]. intros e s. cbn [snd].
  eexists. eexists. reflexivity.
Qed.
Lemma scrape_page_inv self s arts s' :
  scrape_page self s = (inr arts, s') ->
  exists containers data s0 s0' s1 s2,
    driver_find_elements By.CLASS_NAME "contenedor_dato_modulo" s0
    = (inr containers, s0')
    /\ for_append extract_item containers [] s1 = (inr data, s2)
    /\ for_append process_article data [] s2 = (inr arts, s').
Proof.
  unfold scrape_page. intros Hrun.
  apply try_except_reraising_inv in Hrun;
    [| apply (log_then_raise_reraising ERROR
                (fun e => "Error during scraping: " ++ exn_str e))].
  apply bind_inr_inv in Hrun. destruct Hrun as (_ & sa & _ & Hrun).
  apply bind_inr_inv in Hrun. destruct Hrun as (_ & sb & _ & Hrun).
  apply bind_inr_inv in Hrun. destruct Hrun as (_ & sc & _ & Hrun).
  apply bind_inr_inv in Hrun.
  destruct Hrun as (containers & sd & Hfound & Hrun).
  apply bind_inr_inv in Hrun. destruct Hrun as (_ & s1 & _ & Hrun).
  apply bind_inr_inv in Hrun. destruct Hrun as (data & s2 & Hdata & Hrun).
  exists containers, data, sc, sd, s1, s2. auto.
Qed.

Lemma scrape_with_selenium_inv self s arts s' :
  _scrape_with_selenium self s = (inr arts, s') ->
  exists s0 s1, scrape_page self s0 = (inr arts, s1).
Proof.
  unfold _scrape_with_selenium, method. intros Hrun.
  apply bind_inr_inv in Hrun. destruct Hrun as (_ & sa & _ & Hrun).
  unfold _create_driver in Hrun.
  destruct (on_world drv_Chrome sa) as [[e | u] sb]; [discriminate |].
  unfold try_finally in Hrun.
  match type of Hrun with
  | context [match ?body sb with _ => _ end] =>
      destruct (body sb) as [r sc] eqn:Hbody
  end.
  destruct (on_world drv_quit sc) as [[e | u'] sd]; [discriminate |].
  injection Hrun as -> _.
  apply bind_inr_inv in Hbody. destruct Hbody as (_ & s0 & _ & Hpage).
  exists s0, sc. exact Hpage.
Qed.
(** *** What the two loops let through *)

Lemma picked_length {A B} (R : A -> B -> Prop) xs bs :
  picked R xs bs -> (List.length bs <= List.length xs)%nat.
Proof. induction 1; cbn [List.length]; lia. Qed.

Lemma picked_Forall {A B} (R : A -> B -> Prop) (P : B -> Prop) xs bs :
  (forall x b, R x b -> P b) -> picked R xs bs -> Forall P bs.
Proof. intros HP. induction 1; eauto. Qed.

Lemma picked_compose {A B C} (R : A -> B -> Prop) (Q : B -> C -> Prop)
      xs ys zs :
  picked R xs ys -> picked Q ys zs ->
  picked (fun x z => exists y, R x y /\ Q y z) xs zs.
Proof.
  intros HR. revert zs. induction HR as [| x xs ys _ IH | x xs y ys Hxy _ IH];
    intros zs HQ.
  - inversion HQ; subst. constructor.
  - apply picked_skip, IH, HQ.
  - inversion HQ; subst.
    + apply picked_skip, IH. assumption.
    + apply picked_take; [exists y; auto | apply IH; assumption].
Qed.

Lemma for_append_picked {A B} (R : A -> B -> Prop)
      (body : A -> M W (option B)) :
  (forall x s b s', body x s = (inr (Some b), s') -> R x b) ->
  forall xs acc s l s',
    for_append body xs acc s = (inr l, s') ->
    exists bs, l = (acc ++ bs)%list /\ picked R xs bs.
Proof.
  intros Hbody xs.
  induction xs as [| x xs IH]; intros acc s l s' Hrun; cbn [for_append] in Hrun.
  - injection Hrun as <- _. exists []. rewrite app_nil_r.
    split; [reflexivity | constructor].
  - apply bind_inr_inv in Hrun. destruct Hrun as (r & s1 & Hx & Hrun).
    destruct (IH _ _ _ _ Hrun) as (bs & -> & Hbs).
    destruct r as [b |].
    + exists (b :: bs). rewrite <- app_assoc. split; [reflexivity |].
      apply picked_take; [eapply Hbody; eassumption | exact Hbs].
    + exists bs. split; [reflexivity | apply picked_skip, Hbs].
Qed.

Lemma selector_text_stripped (find : string -> string -> M W WebElement)
      sel s k s' :
  selector_text find sel s = (inr (Some k), s') -> stripped k.
Proof.
  unfold selector_text, try_except.
  match goal with
  | |- context [match ?body s with _ => _ end] =>
      destruct (body s) as [[e | r] s1] eqn:Hbody
  end.
  - cbn [dispatch]. destruct (isinstance e NoSuchElementException);
      discriminate.
  - intros Heq. injection Heq as -> _.
    apply bind_inr_inv in Hbody. destruct Hbody as (el & sa & _ & Hbody).
    apply bind_inr_inv in Hbody. destruct Hbody as (t & sb & _ & Hbody).
    injection Hbody as <- _. apply stripped_strip.
Qed.

(** The fallback loop touches the kicker only, and only to set it to a
    non-empty stripped text. *)
Lemma kicker_loop_fields (find : string -> string -> M W WebElement) :
  forall sels d d' s s',
    kicker_loop find sels d s = (inr d', s') ->
    info_title d' = info_title d /\ info_link d' = info_link d
    /\ info_image d' = info_image d
    /\ (info_kicker d' = info_kicker d
        \/ (info_kicker d' <> "" /\ stripped (info_kicker d'))).
Proof.
  induction sels as [| sel rest IH]; intros d d' s s' Hloop.
  - injection Hloop as <- _. auto.
  - cbn [kicker_loop] in Hloop.
    apply bind_inr_inv in Hloop. destruct Hloop as (r & s1 & Hsel & Hloop).
    destruct r as [k |]; [| eauto].
    destruct (truthy k) eqn:Hk; [| eauto].
    injection Hloop as <- _. cbn. repeat split. right.
    split; [apply truthy_true_iff, Hk | eapply selector_text_stripped, Hsel].
Qed.

Lemma title_link_inv container d0 d1 s s1 :
  title_link container d0 s = (inr (Some d1), s1) ->
  exists link_element t href,
    title_link_element container = inr link_element
    /\ text link_element = inr t
    /\ get_attribute link_element "href" = inr href
    /\ d1 = set_link (set_title d0 (strip t)) href.
Proof.
  unfold title_link, title_link_element, try_except, bind, lift, ret.
  destruct (find_element container By.CLASS_NAME "titulo") as [e | titulo].
  { cbn [dispatch]. destruct (isinstance e NoSuchElementException);
      discriminate. }
  destruct (find_element titulo By.TAG_NAME "a") as [e | link_element].
  { cbn [dispatch]. destruct (isinstance e NoSuchElementException);
      discriminate. }
  destruct (text link_element) as [e | t] eqn:Ht.
  { cbn [dispatch]. destruct (isinstance e NoSuchElementException);
      discriminate. }
  destruct (get_attribute link_element "href") as [e | href] eqn:Hhref.
  { cbn [dispatch]. destruct (isinstance e NoSuchElementException);
      discriminate. }
  intros Heq. injection Heq as <- _.
  exists link_element, t, href. auto.
Qed.

(** What a draft of [article_data] owes to its listing item. *)
Lemma extract_item_draft container d s s1 :
  extract_item container s = (inr (Some d), s1) ->
  exists link_element t,
    title_link_element container = inr link_element
    /\ text link_element = inr t
    /\ info_title d = strip t /\ strip t <> ""
    /\ get_attribute link_element "href" = inr (info_link d)
    /\ stripped (info_kicker d).
Proof.
  intros Hex. unfold extract_item in Hex.
  unfold try_except at 1 in Hex.
  match type of Hex with
  | context [match ?body s with _ => _ end] =>
      destruct (body s) as [[e | r] sa] eqn:Hbody
  end.
  { cbn [dispatch] in Hex. rewrite isinstance_Exception in Hex.
    discriminate. }
  injection Hex as -> _.
  apply bind_inr_inv in Hbody. destruct Hbody as (r & sb & Htl & Hbody).
  destruct r as [d1 |]; [| discriminate].
  destruct (title_link_inv _ _ _ Htl) as (el & t & href & Hel & Ht & Hh & ->).
  cbn [set_link set_title info_title] in Hbody.
  destruct (truthy (strip t)) eqn:Htitle; [| discriminate].
  cbn [negb] in Hbody.
  apply bind_inr_inv in Hbody. destruct Hbody as (d2 & sc & Hloop & Hbody).
  apply bind_inr_inv in Hbody. destruct Hbody as (img & sd & _ & Hbody).
  injection Hbody as <- _.
  destruct (kicker_loop_fields _ _ _ _ Hloop) as (Ht2 & Hl2 & _ & Hk2).
  cbn in Ht2, Hl2, Hk2. exists el, t. cbn [set_image info_title info_link
                                            info_kicker].
  rewrite Ht2, Hl2. repeat split; auto.
  - apply truthy_true_iff, Htitle.
  - destruct Hk2 as [-> | [_ Hs]]; [apply stripped_empty | exact Hs].
Qed.

(** What an [Article] owes to its draft. *)
Lemma process_article_fields d a s s' :
  process_article d s = (inr (Some a), s') ->
  title a = info_title d /\ link a = info_link d
  /\ image a = info_image d
  /\ (exists now, scrape_date a = Some now)
  /\ (kicker a = info_kicker d
      \/ (info_kicker d = "" /\ kicker a <> "" /\ stripped (kicker a))).
Proof.
  unfold process_article. unfold try_except at 1. unfold bind at 1.
  assert (Hbuild : forall d' sa,
    (article <- new_Article (info_title d') (info_kicker d') (info_link d')
                            (info_image d') None ;;
     logger INFO ("Processed article: " ++ slice_to 50 (info_title d')
                  ++ "... | Kicker: " ++ slice_to 50 (info_kicker d')
                  ++ "...") ;;
     ret (Some article)) sa = (inr (Some a), s') ->
    title a = info_title d' /\ kicker a = info_kicker d'
    /\ link a = info_link d' /\ image a = info_image d'
    /\ exists now, scrape_date a = Some now).
  { intros d' sa. unfold bind at 1. rewrite new_Article_run.
    unfold bind, logger, emit, ret. intros Heq. injection Heq as <- _.
    cbn. eauto 6. }
  destruct (needs_recovery d) eqn:Hn.
  - destruct (recover_kicker d s) as [[e | [d' |]] s1] eqn:Hrec.
    + cbn [dispatch]. rewrite isinstance_Exception. discriminate.
    + match goal with
      | |- context [match ?build s1 with _ => _ end] =>
          destruct (build s1) as [[e | r] s2] eqn:Hrun
      end;
        [cbn [dispatch]; rewrite isinstance_Exception; discriminate |].
      intros Heq. injection Heq as -> ->. apply Hbuild in Hrun.
      destruct Hrun as (Ht & Hk & Hl & Hi & Hnow).
      apply recover_kicker_some in Hrec.
      destruct (kicker_loop_fields _ _ _ _ Hrec) as (Ht' & Hl' & Hi' & Hk').
      rewrite Ht, Hk, Hl, Hi, Ht', Hl', Hi'. repeat split; auto.
      destruct Hk' as [-> | Hk']; [auto | right].
      apply needs_recovery_iff in Hn. destruct Hn as [Hempty _]. tauto.
    + discriminate.
  - unfold ret at 1.
    match goal with
    | |- context [match ?build s with _ => _ end] =>
        destruct (build s) as [[e | r] s2] eqn:Hrun
    end;
      [cbn [dispatch]; rewrite isinstance_Exception; discriminate |].
    intros Heq. injection Heq as -> ->. apply Hbuild in Hrun.
    destruct Hrun as (Ht & Hk & Hl & Hi & Hnow). auto 6.
Qed.
Lemma loops_picked containers data arts s1 s2 s3 s4 :
  for_append extract_item containers [] s1 = (inr data, s2) ->
  for_append process_article data [] s3 = (inr arts, s4) ->
  picked (fun c a => from_item c a /\ well_formed a) containers arts.
Proof.
  intros Hdata Harts.
  apply (for_append_picked
           (fun c d => exists s sa, extract_item c s = (inr (Some d), sa)))
    in Hdata; [| eauto].
  apply (for_append_picked
           (fun d a => exists s sa, process_article d s = (inr (Some a), sa)))
    in Harts; [| eauto].
  destruct Hdata as (ds & -> & Hds). destruct Harts as (bs & -> & Hbs).
  cbn [app] in *.
  pose proof (picked_compose Hds Hbs) as Hpick. clear Hds Hbs.
  induction Hpick as [| c cs bs _ IH | c cs a bs Hca _ IH];
    [constructor | apply picked_skip, IH | apply picked_take; [| exact IH]].
  destruct Hca as (d & (s & sa & Hex) & (s' & sb & Hproc)).
  apply extract_item_draft in Hex.
  destruct Hex as (el & t & Hel & Ht & Htitle & Hne & Hhref & Hkick).
  apply process_article_fields in Hproc.
  destruct Hproc as (Hta & Hla & _ & Hnow & Hka).
  split.
  - exists el, t. rewrite Hta, Hla. auto.
  - unfold well_formed. rewrite Hta, Htitle.
    split; [exact Hne |]. split; [apply stripped_strip |].
    split; [| exact Hnow].
    destruct Hka as [-> | (_ & _ & Hs)]; assumption.
Qed.

Lemma pipeline_batch_well_formed self s arts s' :
  _scrape_with_selenium self s = (inr arts, s') -> Forall well_formed arts.
Proof.
  intros Hrun.
  apply scrape_with_selenium_inv in Hrun. destruct Hrun as (sa & sb & Hpage).
  apply scrape_page_inv in Hpage.
  destruct Hpage as (cs & data & _ & _ & s1 & s2 & _ & Hdata & Harts).
  eapply picked_Forall;
    [| exact (@loops_picked _ _ _ _ _ _ _ Hdata Harts)].
  intros c b [_ Hwf]. exact Hwf.
Qed.

(** X1: every batch [scrape_news] returns is made of well-formed articles:
    a non-empty title, title and kicker without surrounding whitespace,
    and a timestamp. *)
Theorem scrape_news_articles_well_formed :
  forall (self : NewsScraperProcessor) s (arts : list Article),
    fst (scrape_news self s) = inr arts -> Forall well_formed arts.
Proof.
  intros self s arts Hnews.
  destruct arts as [| a l]; [constructor |].
  destruct (@scrape_news_loop_returns _ _ self (range (max_retries self)) s
              (a :: l) Hnews) as (s0 & Hrun); [discriminate |].
  apply pipeline_batch_well_formed in Hrun. exact Hrun.
Qed.

Lemma scrape_page_returns self s arts s' :
  scrape_page self s = (inr arts, s') ->
  exists u3 w3 u4 w4 containers w5 data s1 s2,
    drv_get (base_url self) (world s) = (inr u3, w3)
    /\ drv_wait_presence 20 By.CLASS_NAME "contenedor_dato_modulo" w3
       = (inr u4, w4)
    /\ drv_find_elements By.CLASS_NAME "contenedor_dato_modulo" w4
       = (inr containers, w5)
    /\ for_append extract_item containers [] s1 = (inr data, s2)
    /\ for_append process_article data [] s2 = (inr arts, s').
Proof.
  unfold scrape_page, driver_get, wait_presence, driver_find_elements.
  unfold try_except at 1.
  match goal with
  | |- context [match ?body s with _ => _ end] =>
      destruct (body s) as [[e0 | arts0] s1] eqn:Hbody
  end.
  { cbn [dispatch]. rewrite isinstance_Exception.
    unfold bind, logger, emit, raise. discriminate. }
  intros Heq. injection Heq as -> ->.
  revert Hbody. unfold bind at 1. unfold logger at 1, emit at 1.
  unfold bind at 1. unfold try_except at 1. unfold bind at 1.
  unfold emit at 1. unfold on_world at 1. cbn [world trace].
  destruct (drv_get (base_url self) (world s)) as [[e1 | u1] w1] eqn:Hget.
  { cbn [dispatch]. unfold bind, logger, emit, raise.
    destruct (isinstance e1 TimeoutException);
      [| destruct (isinstance e1 WebDriverException)]; discriminate. }
  unfold bind at 1. unfold try_except at 1. unfold on_world at 1.
  cbn [world trace].
  destruct (drv_wait_presence 20 By.CLASS_NAME "contenedor_dato_modulo" w1)
    as [[e1 | u2] w2] eqn:Hwait.
  { cbn [dispatch]. unfold bind, logger, emit, raise.
    destruct (isinstance e1 TimeoutException); discriminate. }
  unfold bind at 1. unfold on_world at 1. cbn [world trace].
  destruct (drv_find_elements By.CLASS_NAME "contenedor_dato_modulo" w2)
    as [[e1 | cs] w3] eqn:Hfind; [discriminate |].
  unfold bind at 1. unfold logger at 1, emit at 1. cbn [world trace].
  intros Hloops. apply bind_inr_inv in Hloops.
  destruct Hloops as (data & s2 & Hdata & Harts).
  exists u1, w1, u2, w2, cs, w3, data. eexists. exists s2.
  split; [reflexivity |]. split; [exact Hwait |]. split; [exact Hfind |].
  split; [exact Hdata | exact Harts].
Qed.

(** X2: the articles of one pipeline run are taken, in listing order, from
    the item containers that [find_elements] returned in that run, i.e. in
    the browser reached from the one of the initial state by creating the
    session, setting its timeout, loading the listing and waiting for it.
    Every article comes from a container of its own (its title is the
    stripped text of that container's title link, its link that link's
    [href]), articles keep the order of their containers, and no article
    is invented. *)
Theorem articles_follow_listing_order :
  forall (self : NewsScraperProcessor) s (arts : list Article) s',
    _scrape_with_selenium self s = (inr arts, s') ->
    exists u1 w1 u2 w2 u3 w3 u4 w4 containers w5,
      drv_Chrome (world s) = (inr u1, w1)
      /\ drv_set_page_load_timeout 30 w1 = (inr u2, w2)
      /\ drv_get (base_url self) w2 = (inr u3, w3)
      /\ drv_wait_presence 20 By.CLASS_NAME "contenedor_dato_modulo" w3
         = (inr u4, w4)
      /\ drv_find_elements By.CLASS_NAME "contenedor_dato_modulo" w4
         = (inr containers, w5)
      /\ picked from_item containers arts
      /\ (List.length arts <= List.length containers)%nat.
Proof.
  intros self s arts s'. unfold _scrape_with_selenium, method.
  unfold bind at 1. unfold emit at 1.
  unfold _create_driver, on_world at 1. cbn [world trace].
  destruct (drv_Chrome (world s)) as [[e1 | u1] w1] eqn:HChrome;
    [discriminate |].
  unfold try_finally.
  match goal with
  | |- context [match ?body ?st with _ => _ end] =>
      destruct (body st) as [r s2] eqn:Hbody
  end.
  destruct (on_world drv_quit s2) as [[e2 | u2'] s3]; [discriminate |].
  intros Heq. injection Heq as -> _.
  revert Hbody. unfold bind at 1. unfold on_world at 1. cbn [world trace].
  destruct (drv_set_page_load_timeout 30 w1) as [[e3 | u2] w2] eqn:Hset;
    [discriminate |].
  intros Hpage. apply scrape_page_returns in Hpage. cbn [world] in Hpage.
  destruct Hpage
    as (u3 & w3 & u4 & w4 & cs & w5 & data & sa & sb
        & Hget & Hwait & Hfind & Hdata & Harts).
  pose proof (@loops_picked _ _ _ _ _ _ _ Hdata Harts) as Hpick.
  assert (Hfrom : picked from_item cs arts).
  { clear -Hpick.
    induction Hpick as [| c cs' bs _ IH | c cs' a bs [Hca _] _ IH];
      [constructor | apply picked_skip, IH | apply picked_take; auto]. }
  exists u1, w1, u2, w2, u3, w3, u4, w4, cs, w5.
  split; [reflexivity |]. split; [exact Hset |]. split; [exact Hget |].
  split; [exact Hwait |]. split; [exact Hfind |].
  split; [exact Hfrom | apply (picked_length Hfrom)].
Qed.
(** *** The retry loop, in general *)

Lemma pair_of_fst (A B : Type) (p : A * B) (a : A) :
  fst p = a -> p = (a, snd p).
Proof. intros <-. apply surjective_pairing. Qed.

Lemma attempt_once_cases self attempt s :
  let p := _scrape_with_selenium self s in
  let r := attempt_once self attempt s in
  exists q,
    trace (snd p) = (trace s ++ Call "_scrape_with_selenium" :: q)%list
    /\ forallb quiet_event q = true
    /\ ((exists a l, r = (inr (Some (a :: l)), snd p))
        \/ (fst p = inr []
            /\ r = (inr None,
                    add_events (snd p)
                               [Log WARNING (msg_no_articles attempt)]))
        \/ (exists e,
              (attempt <? max_retries self - 1)%Z = true
              /\ valid_sleep (retry_delay self)
              /\ fst p = inl e
              /\ r = (inr None, retry_state self attempt e (snd p)))
        \/ (exists e e',
              ~ valid_sleep (retry_delay self)
              /\ r = (inl e',
                      add_events (snd p)
                        [ Log ERROR (msg_failed attempt e);
                          Log INFO (msg_retrying self) ]))
        \/ (exists e,
              (attempt <? max_retries self - 1)%Z = false
              /\ fst p = inl e
              /\ r = (inl e,
                      add_events (snd p)
                        [ Log ERROR (msg_failed attempt e);
                          Log ERROR "All retry attempts failed" ]))).
Proof.
  intros p r. subst p r.
  destruct (scrape_with_selenium_trace self s) as (q & E & Q).
  exists q. split; [exact E |]. split; [exact Q |].
  destruct (_scrape_with_selenium self s) as [[e | [| a l]] s1] eqn:Hp;
    cbn [fst snd].
  - destruct (attempt <? max_retries self - 1)%Z eqn:Hlt.
    + destruct (valid_sleep_dec (retry_delay self)) as [Hd | Hd].
      * right. right. left. exists e. split; [reflexivity |].
        split; [exact Hd |]. split; [reflexivity |].
        apply attempt_once_retry; assumption.
      * right. right. right. left.
        destruct (@attempt_once_bad_delay _ _ self attempt s e s1 Hp Hlt Hd)
          as (e' & He' & _).
        exists e, e'. split; [exact Hd | exact He'].
    + right. right. right. right. exists e. split; [reflexivity |].
      split; [reflexivity |]. apply attempt_once_last; assumption.
  - right. left. split; [reflexivity |]. apply attempt_once_soft. assumption.
  - left. exists a, l. apply attempt_once_returns. assumption.
Qed.

Lemma scrape_news_loop_run self :
  forall (n k : nat) s,
    (n <> 0%nat -> Z.of_nat (k + n) = max_retries self) ->
    let r := scrape_news_loop self (map Z.of_nat (seq k n)) s in
    exists evs,
      trace (snd r) = (trace s ++ evs)%list
      /\ Forall (eq (Sleep (retry_delay self))) (sleeps evs)
      /\ (List.length (sleeps evs) <= n - 1)%nat
      /\ (fst r = inr [] -> count_calls evs = n)
      /\ (valid_sleep (retry_delay self) ->
          forall e, fst r = inl e ->
            count_calls evs = n
            /\ raised_by_last_attempt self (map Z.of_nat (seq k n)) s e
                                      (snd r)).
Proof.
  induction n as [| n IH]; intros k s Hmax r; subst r.
  { exists []. cbn [seq map scrape_news_loop ret fst snd sleeps filter
                      count_calls List.length].
    rewrite app_nil_r. split; [reflexivity |]. split; [constructor |].
    split; [lia |]. split; [reflexivity |]. intros _ e He. discriminate. }
  cbn [seq map scrape_news_loop]. unfold bind.
  destruct (attempt_once_cases self (Z.of_nat k) s) as (q & E & Q & Hcase).
  pose proof (quiet_no_calls _ Q) as Qc.
  pose proof (quiet_no_sleeps _ Q) as Qs.
  specialize (Hmax (Nat.neq_succ_0 n)).
  assert (Hseg : forall tail,
    count_calls (Call "_scrape_with_selenium" :: q ++ tail)
    = S (count_calls tail)
    /\ sleeps (Call "_scrape_with_selenium" :: q ++ tail) = sleeps tail).
  { intros tail. unfold count_calls, sleeps. cbn [filter is_call is_sleep].
    rewrite !filter_app, Qc, Qs. auto. }
  assert (Hnext : forall tail,
    let s0 := add_events (snd (_scrape_with_selenium self s)) tail in
    let r := scrape_news_loop self (map Z.of_nat (seq (S k) n)) s0 in
    exists evs,
      trace (snd r)
      = (trace s ++ Call "_scrape_with_selenium" :: q ++ tail ++ evs)%list
      /\ Forall (eq (Sleep (retry_delay self))) (sleeps evs)
      /\ (List.length (sleeps evs) <= n - 1)%nat
      /\ (fst r = inr [] -> count_calls evs = n)
      /\ (valid_sleep (retry_delay self) ->
          forall e, fst r = inl e ->
            count_calls evs = n
            /\ raised_by_last_attempt self (map Z.of_nat (seq (S k) n)) s0 e
                                      (snd r))).
  { intros tail s0 r. subst s0 r.
    destruct (IH (S k) (add_events (snd (_scrape_with_selenium self s)) tail))
      as (evs & E' & Hrest); [intros _; rewrite <- Hmax; f_equal; lia |].
    exists evs. split; [| exact Hrest].
    rewrite E'. cbn [add_events trace]. rewrite E, <- !app_assoc.
    reflexivity. }
  destruct Hcase as [(a & l & ->) | [(Hp & ->) | [(e & Hlt & Hd & Hp & ->)
                    | [(e & e' & Hd & ->) | (e & Hlt & Hp & ->)]]]].
  - (* a non-empty batch *)
    exists (Call "_scrape_with_selenium" :: q). cbn [fst snd].
    destruct (Hseg []) as [_ Hs]. rewrite app_nil_r in Hs.
    rewrite Hs. cbn [sleeps filter List.length]. split; [exact E |].
    split; [constructor |]. split; [lia |]. split; [discriminate |].
    intros _ e He. discriminate.
  - (* an empty batch *)
    destruct (Hnext [Log WARNING (msg_no_articles (Z.of_nat k))])
      as (evs & E' & Hall & Hlen & Hempty & Hraise).
    eexists. split; [exact E' |].
    destruct (Hseg ([Log WARNING (msg_no_articles (Z.of_nat k))] ++ evs)%list)
      as [Hc Hs].
    rewrite Hc, Hs. unfold count_calls, sleeps in *.
    cbn [app filter is_call is_sleep].
    split; [exact Hall |]. split; [lia |].
    split; [intros Hr; rewrite (Hempty Hr); reflexivity |].
    intros Hd e He.
    destruct (Hraise Hd e He) as [-> (s_last & Hst & Hlast)].
    split; [reflexivity |]. exists s_last. split; [| exact Hlast].
    eapply starts_after_empty; [apply pair_of_fst, Hp | exact Hst].
  - (* a failure followed by a retry *)
    assert (Hn : n <> 0%nat).
    { apply Z.ltb_lt in Hlt. lia. }
    destruct (Hnext [ Log ERROR (msg_failed (Z.of_nat k) e);
                      Log INFO (msg_retrying self);
                      Sleep (retry_delay self) ])
      as (evs & E' & Hall & Hlen & Hempty & Hraise).
    eexists. split; [exact E' |].
    match goal with
    | |- context [(q ++ ?t)%list] => destruct (Hseg t) as [Hc Hs]
    end.
    rewrite Hc, Hs. unfold count_calls, sleeps in *.
    cbn [app filter is_call is_sleep List.length].
    split; [constructor; [reflexivity | exact Hall] |]. split; [lia |].
    split; [intros Hr; rewrite (Hempty Hr); reflexivity |].
    intros Hd' e0 He.
    destruct (Hraise Hd' e0 He) as [-> (s_last & Hst & Hlast)].
    split; [reflexivity |]. exists s_last. split; [| exact Hlast].
    eapply starts_after_failure;
      [apply pair_of_fst, Hp | exact Hlt | exact Hd | exact Hst].
  - (* time.sleep rejects the delay *)
    destruct (Hseg [ Log ERROR (msg_failed (Z.of_nat k) e);
                     Log INFO (msg_retrying self) ]) as [Hc Hs].
    eexists. cbn [fst snd add_events trace]. rewrite E, <- app_assoc.
    split; [reflexivity |]. cbn [app] in *. rewrite Hs.
    cbn [sleeps filter is_sleep List.length].
    split; [constructor |]. split; [lia |]. split; [discriminate |].
    intros Hd'. contradiction.
  - (* the last attempt fails *)
    assert (Hn : n = 0%nat).
    { apply Z.ltb_ge in Hlt. lia. }
    assert (Hk : Z.of_nat k = (max_retries self - 1)%Z) by lia.
    destruct (Hseg [ Log ERROR (msg_failed (Z.of_nat k) e);
                     Log ERROR "All retry attempts failed" ]) as [Hc Hs].
    eexists. cbn [fst snd add_events trace]. rewrite E, <- app_assoc.
    split; [reflexivity |]. cbn [app] in *. rewrite Hc, Hs. subst n.
    cbn [sleeps count_calls filter is_sleep is_call List.length].
    split; [constructor |]. split; [lia |]. split; [discriminate |].
    intros _ e0 He. injection He as <-. split; [reflexivity |].
    exists s. rewrite Hp, <- Hk. split; [apply starts_now |].
    split; reflexivity.
Qed.

Lemma scrape_news_run self s :
  let r := scrape_news self s in
  let evs := new_events (scrape_news self) s in
  Forall (eq (Sleep (retry_delay self))) (sleeps evs)
  /\ (List.length (sleeps evs) <= Z.to_nat (max_retries self) - 1)%nat
  /\ (fst r = inr [] -> count_calls evs = Z.to_nat (max_retries self))
  /\ (valid_sleep (retry_delay self) ->
      forall e, fst r = inl e ->
        count_calls evs = Z.to_nat (max_retries self)
        /\ raised_by_last_attempt self (range (max_retries self)) s e
                                  (snd r)).
Proof.
  intros r evs. subst r evs. unfold scrape_news, range.
  destruct (@scrape_news_loop_run self (Z.to_nat (max_retries self)) 0%nat s)
    as (evs & E & Hrest).
  { intros Hn. cbn [Nat.add]. apply Z2Nat.id. lia. }
  rewrite (@new_events_app _ _ (scrape_news_loop self _) s evs E).
  exact Hrest.
Qed.


(** X4: an empty result also means that every attempt was used: the run
    entered the pipeline exactly [max_retries] times (none when
    [max_retries] is not positive). *)
Theorem scrape_news_empty_only_when_exhausted :
  forall (self : NewsScraperProcessor) s,
    fst (scrape_news self s) = inr [] ->
    count_calls (new_events (scrape_news self) s)
    = Z.to_nat (max_retries self).
Proof.
  intros self s He.
  destruct (scrape_news_run self s) as (_ & _ & Hempty & _).
  apply Hempty, He.
Qed.

(** X5: a run sleeps at most [max_retries - 1] times, each time for
    [retry_delay]: the waiting it adds is bounded by
    [(max_retries - 1) * retry_delay]. *)
Theorem scrape_news_sleeps_bounded :
  forall (self : NewsScraperProcessor) s,
    Forall (eq (Sleep (retry_delay self)))
           (sleeps (new_events (scrape_news self) s))
    /\ (List.length (sleeps (new_events (scrape_news self) s))
        <= Z.to_nat (max_retries self) - 1)%nat.
Proof.
  intros self s.
  destruct (scrape_news_run self s) as (Hall & Hlen & _).
  split; assumption.
Qed.
(** *** [_get_article_kicker] *)

Lemma first_kicker_result (find : string -> string -> M W WebElement) :
  forall sels k s s',
    first_kicker find sels s = (inr (Some k), s') -> k <> "" /\ stripped k.
Proof.
  induction sels as [| sel rest IH]; intros k s s' Hrun;
    cbn [first_kicker] in Hrun; [discriminate |].
  apply bind_inr_inv in Hrun. destruct Hrun as (r & s1 & Hsel & Hrun).
  destruct r as [k' |]; [| eauto].
  destruct (truthy k') eqn:Hk; [| eauto].
  injection Hrun as <- _.
  split; [apply truthy_true_iff, Hk | eapply selector_text_stripped, Hsel].
Qed.

(** X6: the two copies of the selector loop agree.  Run from the same
    state with the same lookup and list, the inline loop of
    [_scrape_with_selenium] sets the kicker to exactly the text the loop of
    [_get_article_kicker] returns, leaves the dict alone when that loop
    falls through, raises when it raises, and both end in the same
    state. *)
Theorem kicker_loop_agrees_with_first_kicker :
  forall (find : string -> string -> M W WebElement)
         (sels : list selector) (d : ArticleInfo) s,
    kicker_loop find sels d s
    = match first_kicker find sels s with
      | (inl e, s') => (inl e, s')
      | (inr (Some k), s') => (inr (set_kicker d k), s')
      | (inr None, s') => (inr d, s')
      end.
Proof.
  intros find sels d. induction sels as [| sel rest IH]; intros s.
  - reflexivity.
  - cbn [kicker_loop first_kicker]. unfold bind.
    destruct (selector_text find sel s) as [[e | [k |]] s1];
      [reflexivity | | apply IH].
    destruct (truthy k); [reflexivity | apply IH].
Qed.

(** X7: [_get_article_kicker] never raises.  It returns a string without
    surrounding whitespace; and a non-empty result is always the first
    non-empty match of the selector list on the page once it is opened and
    its marker is present: any failure on the way gives the empty
    string. *)
Theorem get_article_kicker_total :
  forall (url : string) s,
  exists k s',
    _get_article_kicker url s = (inr k, s')
    /\ stripped k
    /\ (k <> "" ->
        exists s1,
          (driver_get url ;;
           wait_presence 10 By.CLASS_NAME "volanta_noticia") s
          = (inr tt, s1)
          /\ first_kicker driver_find_element article_kicker_selectors s1
             = (inr (Some k), s')).
Proof.
  intros url s. unfold _get_article_kicker, try_except.
  match goal with
  | |- context [match ?body s with _ => _ end] =>
      destruct (body s) as [[e | k] s1] eqn:Hbody
  end.
  - cbn [dispatch]. rewrite isinstance_Exception.
    eexists. eexists. split; [reflexivity |].
    split; [apply stripped_empty | intros Hk; contradiction].
  - exists k, s1. split; [reflexivity |].
    apply bind_inr_inv in Hbody. destruct Hbody as ([] & sa & Hget & Hbody).
    apply bind_inr_inv in Hbody. destruct Hbody as ([] & sb & Hwait & Hbody).
    apply bind_inr_inv in Hbody. destruct Hbody as (r & sc & Hfirst & Hbody).
    assert (Hopen : (driver_get url ;;
                     wait_presence 10 By.CLASS_NAME "volanta_noticia") s
                    = (inr tt, sb)).
    { unfold bind at 1. rewrite Hget. exact Hwait. }
    destruct r as [k' |]; injection Hbody as <- <-.
    + split; [eapply first_kicker_result, Hfirst |].
      intros _. exists sb. auto.
    + split; [apply stripped_empty | intros Hk; contradiction].
Qed.
(** *** Failures of the listing page *)

Lemma scrape_with_selenium_get_fails self s e u1 u2 u3 w1 w2 w3 w4 :
  drv_Chrome (world s) = (inr u1, w1) ->
  drv_set_page_load_timeout 30 w1 = (inr u2, w2) ->
  drv_get (base_url self) w2 = (inl e, w3) ->
  drv_quit w3 = (inr u3, w4) ->
  _scrape_with_selenium self s
  = (inl e,
     mkState w4
       (trace s
        ++ [ Call "_scrape_with_selenium";
             Log INFO ("Accessing URL: " ++ base_url self);
             Nav (base_url self) ]
        ++ listing_get_logs self e
        ++ [Log ERROR ("Error during scraping: " ++ exn_str e)])%list).
Proof.
  intros HChrome Hset Hget Hquit.
  unfold _scrape_with_selenium, method, _create_driver, scrape_page,
    driver_get, listing_get_logs.
  unfold try_finally, try_except, bind, logger, emit, on_world, raise.
  cbn [world trace]. rewrite HChrome. cbn [world trace]. rewrite Hset.
  cbn [world trace]. rewrite Hget. cbn [dispatch].
  destruct (isinstance e TimeoutException);
    [| destruct (isinstance e WebDriverException)];
    cbn [dispatch world trace]; unfold raise; cbn [dispatch world trace];
    rewrite ?isinstance_Exception; cbn [world trace]; rewrite Hquit;
    cbn [app]; rewrite <- ?app_assoc; reflexivity.
Qed.

Lemma scrape_with_selenium_wait_fails self s e u1 u2 u3 u4 w1 w2 w3 w4 w5 :
  drv_Chrome (world s) = (inr u1, w1) ->
  drv_set_page_load_timeout 30 w1 = (inr u2, w2) ->
  drv_get (base_url self) w2 = (inr u3, w3) ->
  drv_wait_presence 20 By.CLASS_NAME "contenedor_dato_modulo" w3
  = (inl e, w4) ->
  drv_quit w4 = (inr u4, w5) ->
  _scrape_with_selenium self s
  = (inl e,
     mkState w5
       (trace s
        ++ [ Call "_scrape_with_selenium";
             Log INFO ("Accessing URL: " ++ base_url self);
             Nav (base_url self) ]
        ++ listing_wait_logs e
        ++ [Log ERROR ("Error during scraping: " ++ exn_str e)])%list).
Proof.
  intros HChrome Hset Hget Hwait Hquit.
  unfold _scrape_with_selenium, method, _create_driver, scrape_page,
    driver_get, wait_presence, listing_wait_logs.
  unfold try_finally, try_except, bind, logger, emit, on_world, raise.
  cbn [world trace]. rewrite HChrome. cbn [world trace]. rewrite Hset.
  cbn [world trace]. rewrite Hget. cbn [world trace]. rewrite Hwait.
  cbn [dispatch].
  destruct (isinstance e TimeoutException);
    cbn [dispatch world trace]; unfold raise; cbn [dispatch world trace];
    rewrite ?isinstance_Exception; cbn [world trace]; rewrite Hquit;
    cbn [app]; rewrite <- ?app_assoc; reflexivity.
Qed.
(** X18: a failure of the listing page is fatal for the attempt and is
    reported as it is.  When [driver.get] on the listing URL raises [e], or
    when the wait for the first item raises [e], the pipeline logs the
    failure (a line that depends on the class of [e], then
    [Error during scraping]), quits the session, and raises [e] itself;
    no item is read. *)
Theorem listing_failure_is_fatal :
  forall (self : NewsScraperProcessor) s e u1 u2 w1 w2,
    drv_Chrome (world s) = (inr u1, w1) ->
    drv_set_page_load_timeout 30 w1 = (inr u2, w2) ->
    (forall u3 w3 w4,
       drv_get (base_url self) w2 = (inl e, w3) ->
       drv_quit w3 = (inr u3, w4) ->
       _scrape_with_selenium self s
       = (inl e,
          mkState w4
            (trace s
             ++ [ Call "_scrape_with_selenium";
                  Log INFO ("Accessing URL: " ++ base_url self);
                  Nav (base_url self) ]
             ++ listing_get_logs self e
             ++ [Log ERROR ("Error during scraping: " ++ exn_str e)])%list))
    /\ (forall u3 u4 w3 w4 w5,
          drv_get (base_url self) w2 = (inr u3, w3) ->
          drv_wait_presence 20 By.CLASS_NAME "contenedor_dato_modulo" w3
          = (inl e, w4) ->
          drv_quit w4 = (inr u4, w5) ->
          _scrape_with_selenium self s
          = (inl e,
             mkState w5
               (trace s
                ++ [ Call "_scrape_with_selenium";
                     Log INFO ("Accessing URL: " ++ base_url self);
                     Nav (base_url self) ]
                ++ listing_wait_logs e
                ++ [Log ERROR ("Error during scraping: " ++ exn_str e)])%list)).
Proof.
  intros self s e u1 u2 w1 w2 HChrome Hset. split.
  - intros u3 w3 w4 Hget Hquit.
    eapply scrape_with_selenium_get_fails; eassumption.
  - intros u3 u4 w3 w4 w5 Hget Hwait Hquit.
    eapply scrape_with_selenium_wait_fails; eassumption.
Qed.




(** *** [process_data] *)




(** X12: fed with a batch returned by [scrape_news], [process_data] yields
    a frame exactly when the batch is not empty, and every row of it then
    counts at least one word in its title. *)
Theorem process_data_of_scraped_batch :
  forall (self : NewsScraperProcessor) s (arts : list Article) s1,
    fst (scrape_news self s) = inr arts ->
    match fst (process_data arts s1) with
    | inr None => arts = []
    | inr (Some rows) =>
        arts <> []
        /\ List.length rows = List.length arts
        /\ Forall (fun r => 1 <= title_word_count r) rows
    | inl _ => False
    end.
Proof.
  intros self s arts s1 Hnews. unfold process_data.
  destruct arts as [| a l]; [reflexivity |]. cbn [ret fst].
  split; [discriminate |]. split; [apply length_map |].
  destruct (@scrape_news_loop_returns _ _ self (range (max_retries self)) s
              (a :: l) Hnews) as (s0 & Hrun); [discriminate |].
  apply pipeline_batch_well_formed in Hrun.
  apply Forall_map. eapply Forall_impl; [| exact Hrun].
  intros x (Hne & Hs & _). cbn [add_metrics title_word_count].
  apply stripped_title_has_a_word; assumption.
Qed.
(** *** Faults of one item stay with that item *)

Lemma try_except_catch_all {A} (m : M W A) (h : exn -> M W A) s :
  (forall e s0, exists a s1, h e s0 = (inr a, s1)) ->
  exists a s', try_except m [ (Exception, h) ] s = (inr a, s').
Proof.
  intros Hh. unfold try_except.
  destruct (m s) as [[e | a] s1]; [| eauto].
  cbn [dispatch]. rewrite isinstance_Exception. apply Hh.
Qed.

Lemma extract_item_no_raise container s :
  exists r s', extract_item container s = (inr r, s').
Proof.
  unfold extract_item. apply try_except_catch_all.
  intros e s0. eexists. eexists. reflexivity.
Qed.

Lemma process_article_no_raise d s :
  exists r s', process_article d s = (inr r, s').
Proof.
  unfold process_article. apply try_except_catch_all.
  intros e s0. eexists. eexists. reflexivity.
Qed.

Lemma for_append_no_raise {A B} (body : A -> M W (option B)) :
  (forall x s, exists r s', body x s = (inr r, s')) ->
  forall xs acc s, exists l s', for_append body xs acc s = (inr l, s').
Proof.
  intros Hbody xs. induction xs as [| x xs IH]; intros acc s;
    cbn [for_append].
  - eexists. eexists. reflexivity.
  - unfold bind. destruct (Hbody x s) as (r & s1 & ->). apply IH.
Qed.

(** X15: the two loops of [_scrape_with_selenium] cannot raise, whatever
    the elements and the detail pages do: a fault while reading one item,
    or while recovering one kicker, never aborts the items that follow. *)
Theorem item_faults_do_not_abort :
  forall (containers : list WebElement) (article_data : list ArticleInfo) s,
    (exists data s',
       for_append extract_item containers [] s = (inr data, s'))
    /\ (exists articles s',
          for_append process_article article_data [] s
          = (inr articles, s')).
Proof.
  intros containers article_data s. split.
  - apply for_append_no_raise. apply extract_item_no_raise.
  - apply for_append_no_raise. apply process_article_no_raise.
Qed.

(** X16: processing a draft never raises; it yields no article only if a
    recovery was attempted (the draft had no kicker and a link); and an
    article it yields has the title, link and image of the draft. *)
Theorem process_article_outcome :
  forall (d : ArticleInfo) s,
  exists r s',
    process_article d s = (inr r, s')
    /\ (r = None -> needs_recovery d = true)
    /\ (forall a, r = Some a ->
          title a = info_title d /\ link a = info_link d
          /\ image a = info_image d).
Proof.
  intros d s. destruct (process_article_no_raise d s) as (r & s' & Hrun).
  exists r, s'. split; [exact Hrun |]. split.
  - intros ->. destruct (needs_recovery d) eqn:Hn; [reflexivity |].
    exfalso. revert Hrun. unfold process_article, try_except. rewrite Hn.
    unfold bind at 1. unfold ret at 1. unfold bind at 1.
    rewrite new_Article_run. unfold bind, logger, emit, ret. discriminate.
  - intros a ->. apply process_article_fields in Hrun. tauto.
Qed.

Lemma scrape_page_raises self s e s' :
  scrape_page self s = (inl e, s') ->
  (exists w', drv_get (base_url self) (world s) = (inl e, w'))
  \/ (exists u3 w3,
        drv_get (base_url self) (world s) = (inr u3, w3)
        /\ ((exists w',
               drv_wait_presence 20 By.CLASS_NAME "contenedor_dato_modulo" w3
               = (inl e, w'))
            \/ (exists u4 w4 w',
                  drv_wait_presence 20 By.CLASS_NAME "contenedor_dato_modulo"
                                    w3
                  = (inr u4, w4)
                  /\ drv_find_elements By.CLASS_NAME "contenedor_dato_modulo"
                                       w4
                     = (inl e, w')))).
Proof.
  unfold scrape_page, driver_get, wait_presence, driver_find_elements.
  unfold try_except at 1.
  match goal with
  | |- context [match ?body s with _ => _ end] =>
      destruct (body s) as [[e0 | arts] s1] eqn:Hbody
  end; [| discriminate].
  cbn [dispatch]. rewrite isinstance_Exception.
  unfold bind, logger, emit, raise. intros Heq. injection Heq as <- _.
  revert Hbody. unfold bind, logger, emit, on_world, try_except.
  cbn [world trace].
  destruct (drv_get (base_url self) (world s)) as [[e1 | u1] w1] eqn:Hget.
  { cbn [dispatch]. unfold raise.
    destruct (isinstance e1 TimeoutException);
      [| destruct (isinstance e1 WebDriverException)];
      cbn [world trace]; intros Heq; injection Heq as <- _;
      left; exists w1; reflexivity. }
  cbn [world trace]. right. exists u1, w1. split; [reflexivity |].
  revert Hbody.
  destruct (drv_wait_presence 20 By.CLASS_NAME "contenedor_dato_modulo" w1)
    as [[e1 | u2] w2] eqn:Hwait.
  { cbn [dispatch]. unfold raise.
    destruct (isinstance e1 TimeoutException);
      cbn [world trace]; intros Heq; injection Heq as <- _;
      left; exists w2; reflexivity. }
  cbn [world trace]. right. exists u2, w2. revert Hbody.
  destruct (drv_find_elements By.CLASS_NAME "contenedor_dato_modulo" w2)
    as [[e1 | cs] w3] eqn:Hfind.
  { intros Heq. injection Heq as <- _. exists w3. split; reflexivity. }
  match goal with
  | |- context [for_append extract_item cs [] ?st] =>
      destruct (for_append_no_raise extract_item extract_item_no_raise
                  cs [] st) as (data & sa & ->)
  end.
  match goal with
  | |- context [for_append process_article data [] ?st] =>
      destruct (for_append_no_raise process_article process_article_no_raise
                  data [] st) as (arts & sb & ->)
  end.
  discriminate.
Qed.

(** X17: only the session aborts an attempt.  When the pipeline run
    started in [s] raises [e], then [e] was raised in that very run by
    creating the session, setting its timeout, loading the listing,
    waiting for it, enumerating its items, or quitting, each in the
    browser the run had reached: never by an item or a detail page. *)
Theorem pipeline_raises_only_session_faults :
  forall (self : NewsScraperProcessor) s e,
    fst (_scrape_with_selenium self s) = inl e -> session_fault self s e.
Proof.
  intros self s e. unfold _scrape_with_selenium, method.
  unfold bind at 1. unfold emit at 1.
  unfold _create_driver, on_world at 1. cbn [world trace].
  destruct (drv_Chrome (world s)) as [[e1 | u1] w1] eqn:HChrome.
  { cbn [fst]. intros Heq. injection Heq as <-.
    eapply fault_Chrome. exact HChrome. }
  set (s1 := {| world := w1; trace := _ |}).
  unfold try_finally.
  destruct ((on_world (drv_set_page_load_timeout 30) ;; scrape_page self) s1)
    as [r s2] eqn:Hbody.
  unfold on_world at 1.
  destruct (drv_quit (world s2)) as [[e2 | u2] w3] eqn:Hquit; cbn [fst].
  { intros Heq. injection Heq as <-.
    eapply fault_quit; [exact HChrome |]. fold s1. rewrite Hbody.
    cbn [snd]. exact Hquit. }
  intros ->. revert Hbody. unfold bind at 1. unfold on_world at 1.
  subst s1. cbn [world trace].
  destruct (drv_set_page_load_timeout 30 w1) as [[e3 | u3] w2] eqn:Hset.
  { intros Heq. injection Heq as <- _.
    eapply fault_set_page_load_timeout; eassumption. }
  intros Hpage. apply scrape_page_raises in Hpage. cbn [world] in Hpage.
  destruct Hpage as [(w' & Hget)
                    | (u4 & w4 & Hget & [(w' & Hwait)
                                        | (u5 & w5 & w' & Hwait & Hfind)])].
  - eapply fault_get; eassumption.
  - eapply fault_wait; eassumption.
  - eapply fault_find_elements; eassumption.
Qed.
End Further.

(** *** Relations every step of the pipeline keeps *)

Section Frame.
Context {W : Type} `{WebDriver W}.
Variable R : state W -> state W -> Prop.
Hypothesis R_refl : forall s, R s s.
Hypothesis R_trans : forall s1 s2 s3, R s1 s2 -> R s2 s3 -> R s1 s3.

Lemma keeps_ret {A} (a : A) : keeps R (ret a).
Proof. intros s. apply R_refl. Qed.

Lemma keeps_raise {A} e : keeps R (raise (A := A) e).
Proof. intros s. apply R_refl. Qed.

Lemma keeps_lift {A} (r : result A) : keeps R (lift r).
Proof. intros s. apply R_refl. Qed.

Lemma keeps_bind {A B} (m : M W A) (k : A -> M W B) :
  keeps R m -> (forall a, keeps R (k a)) -> keeps R (bind m k).
Proof.
  intros Hm Hk s. unfold bind. specialize (Hm s).
  destruct (m s) as [[e | a] s1]; cbn [snd] in *; [exact Hm |].
  eapply R_trans; [exact Hm | apply Hk].
Qed.

Lemma keeps_dispatch {A} (hs : list (exn_class * (exn -> M W A))) e :
  Forall (fun ch => forall e', keeps R (snd ch e')) hs ->
  keeps R (dispatch hs e).
Proof.
  induction 1 as [| [c h] hs Hh _ IH]; cbn [dispatch].
  - apply keeps_raise.
  - destruct (isinstance e c); [apply Hh | exact IH].
Qed.

Lemma keeps_try_except {A} (m : M W A) hs :
  keeps R m ->
  Forall (fun ch => forall e, keeps R (snd ch e)) hs ->
  keeps R (try_except m hs).
Proof.
  intros Hm Hhs s. unfold try_except. specialize (Hm s).
  destruct (m s) as [[e | a] s1]; cbn [snd] in *; [| exact Hm].
  eapply R_trans; [exact Hm | apply keeps_dispatch, Hhs].
Qed.

Lemma keeps_try_finally {A} (m : M W A) (f : M W unit) :
  keeps R m -> keeps R f -> keeps R (try_finally m f).
Proof.
  intros Hm Hf s. unfold try_finally. specialize (Hm s).
  destruct (m s) as [r s1]; cbn [snd] in *. specialize (Hf s1).
  destruct (f s1) as [[e | u] s2]; cbn [snd] in *;
    eapply R_trans; eassumption.
Qed.

Lemma keeps_for_append {A B} (body : A -> M W (option B)) :
  (forall x, keeps R (body x)) ->
  forall xs acc, keeps R (for_append body xs acc).
Proof.
  intros Hbody xs. induction xs as [| x xs IH]; intros acc; cbn [for_append].
  - apply keeps_ret.
  - apply keeps_bind; [apply Hbody | intros r; apply IH].
Qed.

Ltac keeps_step :=
  match goal with
  | |- @keeps _ _ _ (bind _ _) => apply keeps_bind; [| intros ?]
  | |- @keeps _ _ _ (ret _) => apply keeps_ret
  | |- @keeps _ _ _ (raise _) => apply keeps_raise
  | |- @keeps _ _ _ (lift _) => apply keeps_lift
  | |- @keeps _ _ _ (try_except _ _) => apply keeps_try_except
  | |- @keeps _ _ _ (try_finally _ _) => apply keeps_try_finally
  | |- @keeps _ _ _ (for_append _ _ _) => apply keeps_for_append; intros ?
  | |- Forall _ (_ :: _) => constructor; [intros ?; cbn [snd] |]
  | |- Forall _ [] => constructor
  | |- @keeps _ _ _ (if ?b then _ else _) => destruct b
  | |- @keeps _ _ _ (match ?x with _ => _ end) => destruct x
  end.

Lemma keeps_kicker_loop (find : string -> string -> M W WebElement) :
  (forall b v, keeps R (find b v)) ->
  forall sels d, keeps R (kicker_loop find sels d).
Proof.
  intros Hf sels d. induction sels as [| sel rest IH]; cbn [kicker_loop].
  - apply keeps_ret.
  - apply keeps_bind.
    + unfold selector_text. repeat keeps_step. apply Hf.
    + intros [k |]; [destruct (truthy k) |]; auto using keeps_ret.
Qed.

(** What is left to check of a relation: that logging, navigating,
    waiting, searching and reading the clock keep it. *)
Hypothesis R_emit : forall ev, keeps R (emit ev).
Hypothesis R_get : forall url, keeps R (on_world (drv_get url)).
Hypothesis R_wait : forall t b v,
  keeps R (on_world (drv_wait_presence t b v)).
Hypothesis R_find : forall b v, keeps R (on_world (drv_find_element b v)).
Hypothesis R_find_all : forall b v,
  keeps R (on_world (drv_find_elements b v)).
Hypothesis R_clock :
  keeps R (on_world (fun w => let (t, w') := clock_now w in (inr t, w'))).

Lemma keeps_scrape_page self : keeps R (scrape_page self).
Proof.
  unfold scrape_page, extract_item, title_link, _safe_find_element,
    process_article, recover_kicker, new_Article, post_init,
    datetime_now_isoformat, driver_get, wait_presence, driver_find_elements,
    logger.
  repeat first
    [ keeps_step
    | apply R_emit | apply R_get | apply R_wait | apply R_find_all
    | apply R_clock
    | apply keeps_kicker_loop; intros; first [apply keeps_lift | apply R_find]
    ].
Qed.
End Frame.

(** *** Sessions are released *)

Section Sessions.
Context {W : Type} `{WebDriver W}.
Implicit Types (s : state (Counted W)).

Lemma browsing_refl s : browsing s s.
Proof.
  repeat split. exists []. rewrite app_nil_r. reflexivity.
Qed.

Lemma browsing_trans s1 s2 s3 :
  browsing s1 s2 -> browsing s2 s3 -> browsing s1 s3.
Proof.
  intros (Hc & Hq & Hp & evs & E) (Hc' & Hq' & Hp' & evs' & E').
  repeat split; try congruence.
  exists (evs ++ evs')%list. rewrite E', E, app_assoc. reflexivity.
Qed.

Lemma accounted_refl s : accounted s s.
Proof. split; [lia |]. split; [lia |]. intros _. lia. Qed.

Lemma accounted_trans s1 s2 s3 :
  accounted s1 s2 -> accounted s2 s3 -> accounted s1 s3.
Proof.
  intros (Hb & Hc & Hp) (Hb' & Hc' & Hp').
  split; [lia |]. split; [lia |]. intros Hclosed.
  specialize (Hp Hclosed). assert (Hclosed' : created (world s2)
                                              = quits (world s2)) by lia.
  specialize (Hp' Hclosed'). lia.
Qed.

Lemma browsing_accounted s s' : browsing s s' -> accounted s s'.
Proof.
  intros (Hc & Hq & Hp & evs & E). unfold accounted.
  rewrite E, filter_app, length_app.
  split; [lia |]. split; [lia |]. intros _. lia.
Qed.

Lemma browsing_emit ev : keeps (W := Counted W) browsing (emit ev).
Proof. intros s. repeat split. exists [ev]. reflexivity. Qed.

Lemma browsing_counting {A} (op : W -> result A * W) :
  keeps browsing (on_world (counting op)).
Proof.
  intros s. unfold on_world, counting.
  destruct (op (inner (world s))) as [r w]. cbn.
  repeat split. exists []. rewrite app_nil_r. reflexivity.
Qed.

Lemma browsing_clock :
  keeps (W := Counted W) browsing
        (on_world (fun w => let (t, w') := clock_now w in (inr t, w'))).
Proof.
  intros s. unfold on_world. cbn [clock_now counted_driver]. unfold counting.
  destruct (clock_now (inner (world s))) as [t w]. cbn.
  repeat split. exists []. rewrite app_nil_r. reflexivity.
Qed.

Lemma browsing_scrape_page self :
  keeps (W := Counted W) browsing (scrape_page self).
Proof.
  apply (@keeps_scrape_page (Counted W) counted_driver browsing browsing_refl
           browsing_trans browsing_emit
           (fun url => browsing_counting (drv_get url))
           (fun t b v => browsing_counting (drv_wait_presence t b v))
           (fun b v => browsing_counting (drv_find_element b v))
           (fun b v => browsing_counting (drv_find_elements b v))
           browsing_clock).
Qed.

Lemma accounted_scrape_with_selenium self :
  keeps (W := Counted W) accounted (_scrape_with_selenium self).
Proof.
  intros s. unfold _scrape_with_selenium, method, bind, emit.
  set (s0 := {| world := world s; trace := _ |}).
  assert (H0 : browsing s s0).
  { repeat split. eexists. reflexivity. }
  unfold _create_driver, on_world at 1.
  cbn [drv_Chrome counted_driver]. unfold counting_Chrome.
  destruct (drv_Chrome (inner (world s0))) as [[e | u] w1]; cbn [snd].
  { apply browsing_accounted. eapply browsing_trans; [exact H0 |].
    repeat split. exists []. rewrite app_nil_r. reflexivity. }
  set (s1 := {| world := _; trace := trace s0 |}).
  unfold try_finally.
  assert (Hbody : keeps (W := Counted W) browsing
            (on_world (drv_set_page_load_timeout 30) ;; scrape_page self)).
  { apply keeps_bind; [apply browsing_trans | apply browsing_counting |].
    intros _. apply browsing_scrape_page. }
  specialize (Hbody s1).
  match goal with
  | |- context [match ?body s1 with _ => _ end] =>
      destruct (body s1) as [r s2]
  end.
  cbn [snd] in Hbody. destruct Hbody as (Hc & Hq & Hp & evs & E).
  unfold on_world. cbn [drv_quit counted_driver]. unfold counting_quit.
  destruct (drv_quit (inner (world s2))) as [[e | u'] w3]; cbn [snd];
    unfold accounted; cbn [world trace created quits peak];
    rewrite Hc, Hq, Hp, E; subst s1 s0; cbn [world trace created quits peak];
    rewrite !filter_app, !length_app; cbn [filter is_call List.length];
    (split; [lia |]); (split; [lia |]); intros Hclosed; rewrite Hclosed;
    replace (S (quits (world s)) - quits (world s)) with 1 by lia;
    reflexivity.
Qed.

Lemma accounted_scrape_news self :
  keeps (W := Counted W) accounted (scrape_news self).
Proof.
  pose proof (@keeps_ret _ _ accounted_refl) as Kret.
  pose proof (@keeps_raise _ _ accounted_refl) as Kraise.
  pose proof (@keeps_bind _ _ accounted_trans) as Kbind.
  assert (Hlog : forall lvl msg,
            keeps (W := Counted W) accounted (logger lvl msg)).
  { intros lvl msg s. apply browsing_accounted, browsing_emit. }
  assert (Hattempt : forall attempt,
            keeps (W := Counted W) accounted (attempt_once self attempt)).
  { intros attempt. unfold attempt_once.
    apply (keeps_try_except accounted_refl accounted_trans).
    - apply Kbind; [apply accounted_scrape_with_selenium |].
      intros [| a l]; [| apply Kret].
      apply Kbind; [apply Hlog | intros _; apply Kret].
    - constructor; [| constructor]. intros e. cbn [snd].
      apply Kbind; [apply Hlog |]. intros _.
      destruct (_ <? _)%Z.
      + apply Kbind; [apply Hlog |]. intros _.
        apply Kbind; [| intros _; apply Kret].
        unfold time_sleep. destruct (_ || _); [apply Kraise |].
        destruct (_ <? _)%Z; [apply Kraise |].
        intros s. apply browsing_accounted, browsing_emit.
      + apply Kbind; [apply Hlog | intros _; apply Kraise]. }
  unfold scrape_news. generalize (range (max_retries self)) as attempts.
  induction attempts as [| attempt rest IH]; cbn [scrape_news_loop].
  - apply Kret.
  - apply Kbind; [apply Hattempt |].
    intros [arts |]; [apply Kret | exact IH].
Qed.

(** X8: whatever the browser does and however the run ends (a batch, an
    empty result or an exception), [scrape_news] calls [driver.quit] once
    for every session it created; it creates at most [max_retries]
    sessions; and, started without an open session, it never has two
    sessions open at once. *)
Theorem scrape_news_releases_sessions :
  forall (self : NewsScraperProcessor) s,
    let s' := snd (scrape_news self s) in
    created (world s') + quits (world s)
    = quits (world s') + created (world s)
    /\ created (world s')
       <= created (world s) + Z.to_nat (max_retries self)
    /\ (created (world s) = quits (world s) ->
        peak (world s') <= Nat.max (peak (world s)) 1).
Proof.
  intros self s s'. subst s'.
  destruct (accounted_scrape_news self s) as (Hb & Hc & Hp).
  split; [exact Hb |]. split; [| exact Hp].
  unfold scrape_news in *.
  destruct (scrape_news_loop_calls self (range (max_retries self)) s)
    as (evs & E & Hcalls).
  rewrite E, filter_app, length_app in Hc.
  unfold count_calls, range in Hcalls.
  rewrite length_map, length_seq in Hcalls. lia.
Qed.
End Sessions.

(** *** The warehouse and the entry point *)

Section EntryProperties.
Context {W : Type} `{WebDriver W} `{Storage W}.
Implicit Types (s : state W).

(** X13: [upload_to_bigquery] never raises.  For [None] or an empty frame
    it returns [False] without contacting the warehouse; and it returns
    [True] only when the client was created and the load job of exactly
    these rows completed. *)
Theorem upload_to_bigquery_total :
  forall (df : option (list Row)) s,
  exists b s',
    upload_to_bigquery df s = (inr b, s')
    /\ (df = None \/ df = Some [] -> b = false /\ world s' = world s)
    /\ (b = true ->
        exists rows table_ref u1 u2 w1,
          df = Some rows /\ rows <> []
          /\ bq_Client (world s) = (inr u1, w1)
          /\ bq_load rows table_ref w1 = (inr u2, world s')).
Proof.
  intros df s. unfold upload_to_bigquery.
  destruct df as [[| r rows] |].
  - eexists. eexists. split; [reflexivity |].
    split; [intros _; split; reflexivity | discriminate].
  - unfold try_except.
    match goal with
    | |- context [match ?body s with _ => _ end] =>
        destruct (body s) as [[e | b] s1] eqn:Hbody
    end.
    + cbn [dispatch]. rewrite isinstance_Exception.
      eexists. eexists. split; [reflexivity |].
      split; [intros [Hd | Hd]; discriminate | discriminate].
    + exists b, s1. split; [reflexivity |].
      split; [intros [Hd | Hd]; discriminate |]. intros _.
      apply bind_inr_inv in Hbody. destruct Hbody as (u1 & sa & HC & Hbody).
      apply bind_inr_inv in Hbody. destruct Hbody as (p & sb & Hp & Hbody).
      apply bind_inr_inv in Hbody. destruct Hbody as (d & sc & Hd & Hbody).
      apply bind_inr_inv in Hbody. destruct Hbody as (t & sd & Ht & Hbody).
      apply bind_inr_inv in Hbody. destruct Hbody as (u2 & se & HL & Hbody).
      apply bind_inr_inv in Hbody. destruct Hbody as (u3 & sf & Hlog & Hbody).
      injection Hbody as _ <-.
      unfold env_text in Hp, Hd, Ht.
      injection Hp as _ <-. injection Hd as _ <-. injection Ht as _ <-.
      unfold logger, emit in Hlog. injection Hlog as Hsf.
      unfold on_world in HC, HL.
      destruct (bq_Client (world s)) as [r1 w1] eqn:HC'.
      injection HC as -> <-. cbn [world] in HL.
      match type of HL with
      | context [bq_load ?rs ?ref w1] =>
          destruct (bq_load rs ref w1) as [r2 w2] eqn:HL';
          exists rs, ref, u1, u2, w1
      end.
      injection HL as -> <-. subst sf. cbn [world].
      split; [reflexivity |]. split; [discriminate |].
      split; [reflexivity | exact HL'].
  - eexists. eexists. split; [reflexivity |].
    split; [intros _; split; reflexivity | discriminate].
Qed.

(** X14: [main] never lets an exception escape: it returns, or exits with
    status 1.  It returns only when, in this very run, [scrape_news]
    (called right after the first log) gave a non-empty batch, the upload
    of the frame built from that batch (called right after the second
    log, in the state [scrape_news] left) returned [True], and
    [save_to_csv], run in the state the upload left, did not raise and
    left the final state; in particular an empty batch, a failed scrape, a
    refused upload or a failed save all exit with status 1. *)
Theorem main_ending :
  forall s,
  exists st s',
    main s = (inr st, s')
    /\ (st = Returned \/ st = Exited 1)
    /\ (st = Returned ->
        exists arts s1 s2,
          arts <> []
          /\ scrape_news init_processor
               (add_events s [Log INFO "Starting news scraping..."])
             = (inr arts, s1)
          /\ upload_to_bigquery (Some (map add_metrics arts))
               (add_events s1
                  [Log INFO ("Successfully scraped "
                             ++ str_of_Z (Z.of_nat (List.length arts))
                             ++ " articles")])
             = (inr true, s2)
          /\ save_to_csv (map add_metrics arts) s2 = (inr tt, s')).
Proof.
  intros s. unfold main, try_except.
  match goal with
  | |- context [match ?body s with _ => _ end] =>
      destruct (body s) as [[e | st] s1] eqn:Hbody
  end.
  { cbn [dispatch]. rewrite isinstance_Exception.
    eexists. eexists. split; [reflexivity |].
    split; [right; reflexivity | discriminate]. }
  exists st, s1. split; [reflexivity |].
  apply bind_inr_inv in Hbody. destruct Hbody as (u0 & sa & Hlog1 & Hbody).
  unfold logger, emit in Hlog1. injection Hlog1 as Hsa. subst sa.
  apply bind_inr_inv in Hbody. destruct Hbody as (arts & sb & Hnews & Hbody).
  destruct arts as [| a l].
  { apply bind_inr_inv in Hbody. destruct Hbody as (_ & sc & _ & Hbody).
    injection Hbody as <- _. split; [right; reflexivity | discriminate]. }
  apply bind_inr_inv in Hbody. destruct Hbody as (u1 & sc & Hlog2 & Hbody).
  unfold logger, emit in Hlog2. injection Hlog2 as Hsc. subst sc.
  apply bind_inr_inv in Hbody. destruct Hbody as (df & sd & Hdf & Hbody).
  unfold process_data, ret in Hdf. injection Hdf as <- <-.
  apply bind_inr_inv in Hbody. destruct Hbody as (ok & se & Hup & Hbody).
  destruct ok; cbn [negb] in Hbody.
  - apply bind_inr_inv in Hbody. destruct Hbody as ([] & sf & Hsave & Hbody).
    injection Hbody as <- <-. split; [left; reflexivity |]. intros _.
    exists (a :: l), sb, se.
    split; [discriminate |]. split; [exact Hnews |].
    split; [exact Hup | exact Hsave].
  - apply bind_inr_inv in Hbody. destruct Hbody as (_ & sf & _ & Hbody).
    injection Hbody as <- _. split; [right; reflexivity | discriminate].
Qed.
End EntryProperties.

(** [main] on the scripted browser: the two-item listing with a warehouse
    that accepts the load, the same with one that refuses it, and an empty
    listing. *)
Example sim_main :
  fst (@main _ _ (Sim.storage false) (Sim.start Sim.two_items))
  = inr Returned
  /\ fst (@main _ _ (Sim.storage true) (Sim.start Sim.two_items))
     = inr (Exited 1)
  /\ fst (@main _ _ (Sim.storage false) (Sim.start Sim.empty_listing))
     = inr (Exited 1).
Proof. vm_compute. repeat split. Qed.

(** *** Runs on the scripted browser *)

(** Three failed attempts open and quit three sessions, one at a time. *)
Example sim_sessions :
  let s := mkState (mkCounted Sim.offline 0 0 0) [] in
  let w := world (snd (scrape_news init_processor s)) in
  (created w, quits w, peak w) = (3, 3, 1)%nat.
Proof. vm_compute. reflexivity. Qed.

Lemma scrape_news_articles_well_formed_witness :
  Forall well_formed
    [ mkArticle "A" "Breaking" (Some "https://x/a") (Some "") (Some "T0");
      mkArticle "B" "Recovered" (Some "https://x/b") (Some "") (Some "T1") ].
Proof.
  apply (@scrape_news_articles_well_formed _ _ init_processor
           (Sim.start Sim.two_items)).
  vm_compute. reflexivity.
Defined.

Lemma articles_follow_listing_order_witness :
  let s := Sim.start Sim.two_items in
  let arts :=
    [ mkArticle "A" "Breaking" (Some "https://x/a") (Some "") (Some "T0");
      mkArticle "B" "Recovered" (Some "https://x/b") (Some "") (Some "T1") ]
  in
  exists u1 w1 u2 w2 u3 w3 u4 w4 containers w5,
    drv_Chrome (world s) = (inr u1, w1)
    /\ drv_set_page_load_timeout 30 w1 = (inr u2, w2)
    /\ drv_get (base_url init_processor) w2 = (inr u3, w3)
    /\ drv_wait_presence 20 By.CLASS_NAME "contenedor_dato_modulo" w3
       = (inr u4, w4)
    /\ drv_find_elements By.CLASS_NAME "contenedor_dato_modulo" w4
       = (inr containers, w5)
    /\ picked from_item containers arts
    /\ (List.length arts <= List.length containers)%nat.
Proof.
  intros s arts.
  apply (@articles_follow_listing_order _ _ init_processor s arts
           (snd (_scrape_with_selenium init_processor s))).
  vm_compute. reflexivity.
Defined.


Lemma scrape_news_empty_only_when_exhausted_witness :
  count_calls (new_events (scrape_news init_processor)
                          (Sim.start Sim.empty_listing)) = 3%nat.
Proof.
  apply (@scrape_news_empty_only_when_exhausted _ _ init_processor
           (Sim.start Sim.empty_listing)).
  vm_compute. reflexivity.
Defined.



Lemma process_data_of_scraped_batch_witness :
  let arts :=
    [ mkArticle "A" "Breaking" (Some "https://x/a") (Some "") (Some "T0");
      mkArticle "B" "Recovered" (Some "https://x/b") (Some "") (Some "T1") ]
  in
  match fst (process_data arts (Sim.start Sim.two_items)) with
  | inr None => arts = []
  | inr (Some rows) =>
      arts <> []
      /\ List.length rows = List.length arts
      /\ Forall (fun r => 1 <= title_word_count r) rows
  | inl _ => False
  end.
Proof.
  intros arts.
  apply (@process_data_of_scraped_batch _ _ init_processor
           (Sim.start Sim.two_items) arts (Sim.start Sim.two_items)).
  vm_compute. reflexivity.
Defined.

Lemma pipeline_raises_only_session_faults_witness :
  session_fault init_processor (mkState Sim.offline []) Sim.refused.
Proof.
  apply (@pipeline_raises_only_session_faults _ _ init_processor
           (mkState Sim.offline []) Sim.refused).
  vm_compute. reflexivity.
Defined.

Lemma listing_failure_is_fatal_witness :
  let s := Sim.start Sim.listing_never_ready in
  exists w5 evs,
    _scrape_with_selenium init_processor s
    = (inl (Raise TimeoutException "Message: "),
       mkState w5
         (trace s
          ++ [ Call "_scrape_with_selenium";
               Log INFO ("Accessing URL: " ++ base_url init_processor);
               Nav (base_url init_processor) ]
          ++ evs
          ++ [Log ERROR "Error during scraping: Message: "])%list)
    /\ evs = [Log ERROR "Timeout waiting for article containers to load"].
Proof.
  intros s.
  assert (HChrome : drv_Chrome (world s) = (inr tt, world s))
    by reflexivity.
  assert (Hset : drv_set_page_load_timeout 30 (world s) = (inr tt, world s))
    by reflexivity.
  destruct (@listing_failure_is_fatal _ _ init_processor s
              (Raise TimeoutException "Message: ") tt tt
              (world s) (world s) HChrome Hset) as [_ Hwait].
  eexists. eexists. split.
  - eapply (Hwait tt tt); reflexivity.
  - reflexivity.
Defined.

